(** * french-house-stack: session test injector and root loader

    A shallow embedding of the two TypeScript sources of the repository:

    - the Playwright helper module that exports [loginByCookie] (it forges an
      authenticated browser session for end-to-end tests), and
    - [app/root.tsx], whose [rootLoader] serves every request of the
      application, with the route's [shouldRevalidate], [meta], [Layout]
      and [ErrorBoundary].

    Both functions are [async] and do nothing but call into collaborators
    (faker, [createUserSession], the [cookie] parser, Playwright, i18next, the
    toast reader, [enforceHttps]).  They are embedded in a small monad that
    threads a world, records every call to a collaborator in a log, and
    propagates thrown values.  What a source imports and does not define is
    a field of the [Imports] class of its module. *)

From Stdlib Require Import Ascii String List Bool Arith Lia.
From stdpp Require Import base option list strings pretty gmap.
Import ListNotations.

(** ** JavaScript values used by the sources *)

Module Js.

(** A value of type [string | null] or [string | undefined] is an
    [option string]; [None] is the absent value. *)

(** [!!v] for a string: only the empty string is falsy. *)
Definition truthy_string (s : string) : bool :=
  negb (String.eqb s "").

(** [!!v] for [string | null | undefined]. *)
Definition truthy (v : option string) : bool :=
  match v with
  | Some s => truthy_string s
  | None => false
  end.

(** [a || b] where [a : string | undefined] and [b : string]. *)
Definition or_else (a : option string) (b : string) : string :=
  match a with
  | Some s => if truthy_string s then s else b
  | None => b
  end.

(** [a === b] on strings. *)
Definition strict_eq (a b : string) : bool := String.eqb a b.

End Js.

(** ** Fetch API objects: [Headers], [Request], [Response] *)

Module Fetch.

(** A header list: the entries in insertion order, names as they were
    given. *)
Definition Headers := list (string * string).

Definition lower_ascii (c : ascii) : ascii :=
  let n := nat_of_ascii c in
  if (65 <=? n) && (n <=? 90) then ascii_of_nat (n + 32) else c.

Fixpoint lower (s : string) : string :=
  match s with
  | EmptyString => EmptyString
  | String c s' => String (lower_ascii c) (lower s')
  end.

(** Header names match byte-case-insensitively. *)
Definition same_name (a b : string) : bool :=
  String.eqb (lower a) (lower b).

Definition values_of (h : Headers) (name : string) : list string :=
  map snd (List.filter (fun e => same_name (fst e) name) h).

Fixpoint join (sep : string) (l : list string) : string :=
  match l with
  | [] => ""
  | [x] => x
  | x :: rest => x +:+ sep +:+ join sep rest
  end.

(** [headers.get(name)]: [null] when no entry has that name, otherwise the
    values of the entries of that name joined by a comma and a space. *)
Definition get (h : Headers) (name : string) : option string :=
  match values_of h name with
  | [] => None
  | vs => Some (join ", " vs)
  end.

Record Request := mkRequest {
  url : string;
  method : string;
  request_headers : Headers
}.

(** [new Request(url)]: a GET request without headers. *)
Definition new_Request (u : string) : Request :=
  {| url := u; method := "GET"; request_headers := [] |}.

Record Response := mkResponse {
  status : nat;
  headers : Headers
}.

End Fetch.

(** ** Completions and the call-logging monad *)

Module Eff.

(** What JavaScript code can throw or reject with, as far as the two
    sources are concerned: an [Error] with a message, or a [Response]
    (Remix loaders throw redirects). *)
Inductive Thrown :=
| Error (message : string)
| ThrownResponse (r : Fetch.Response).

(** How an evaluation ends. *)
Inductive Completion (A : Type) :=
| Normal (a : A)
| Throw (x : Thrown).
Arguments Normal {A} a.
Arguments Throw {A} x.

Section Monad.
Context {W : Type}.

(** A computation over a world [W].  [await] of a promise is the bind of
    this monad: a rejection is a [Throw] and skips the continuation. *)
Definition M (A : Type) := W -> Completion A * W.

Definition ret {A} (a : A) : M A := fun w => (Normal a, w).

Definition throw {A} (x : Thrown) : M A := fun w => (Throw x, w).

Definition bind {A B} (m : M A) (k : A -> M B) : M B :=
  fun w =>
    match m w with
    | (Normal a, w') => k a w'
    | (Throw x, w') => (Throw x, w')
    end.

(** [lift c]: finish with the completion [c] without touching the
    world. *)
Definition lift {A} (c : Completion A) : M A := fun w => (c, w).

Definition modify (f : W -> W) : M unit := fun w => (Normal tt, f w).

Definition gets {A} (f : W -> A) : M A := fun w => (Normal (f w), w).

End Monad.

Arguments M W A : clear implicits.

End Eff.

Declare Scope eff_scope.
Delimit Scope eff_scope with eff.
Notation "x <- m ;; k" := (Eff.bind m (fun x => k))
  (at level 100, m at next level, right associativity) : eff_scope.
Notation "m ;;; k" := (Eff.bind m (fun _ => k))
  (at level 100, right associativity) : eff_scope.


(** ** Cookie strings

    The reading of a [name=value; name=value] cookie string into an object
    keyed by cookie name: the pieces are separated by [;], a piece is cut at
    its first [=], name and value lose their surrounding white space, a piece
    without [=] is skipped, and the first piece of a name wins.  It is the
    instance of the [parse] collaborator on which the injector is run in the
    examples, and the reader of the [Cookie] request header. *)

Module CookieString.

Fixpoint split_on (sep : ascii) (s : string) : list string :=
  match s with
  | EmptyString => [EmptyString]
  | String c s' =>
      if Ascii.eqb c sep then EmptyString :: split_on sep s'
      else match split_on sep s' with
           | h :: t => String c h :: t
           | [] => [String c EmptyString]
           end
  end.

Fixpoint cut_at (sep : ascii) (s : string) : option (string * string) :=
  match s with
  | EmptyString => None
  | String c s' =>
      if Ascii.eqb c sep then Some (EmptyString, s')
      else match cut_at sep s' with
           | Some (a, b) => Some (String c a, b)
           | None => None
           end
  end.

Fixpoint trim_start (s : string) : string :=
  match s with
  | EmptyString => EmptyString
  | String c s' => if Ascii.is_space c then trim_start s' else s
  end.

Definition trim (s : string) : string :=
  String.rev (trim_start (String.rev (trim_start s))).

Definition add_pair (piece : string) (obj : gmap string string)
  : gmap string string :=
  match cut_at "=" piece with
  | Some (k, v) => <[trim k := trim v]> obj
  | None => obj
  end.

Definition parse (str : string) : gmap string string :=
  fold_right add_pair ∅ (split_on ";" str).

End CookieString.


(** ** The test injector: [generateRandomDid] and [loginByCookie] *)

Module TestInjector.
Import Eff.
Local Open Scope eff_scope.

(** A Playwright page, known by its handle.  The browser context of the page
    is reached through [page.context()]. *)
Record Page := mkPage { page_id : nat }.

(** The object passed to [createUserSession]. *)
Record CreateUserSessionArgs := mkArgs {
  redirectTo : string;
  remember : bool;
  request : Fetch.Request;
  userId : string
}.

(** An element of the array passed to [addCookies].  [value] is whatever
    [parsedCookie[USER_AUTHENTICATION_SESSION_NAME]] evaluates to: the
    string found under that key, or [undefined] ([None]) when the parsed
    object has no such key. *)
Record Cookie := mkCookie {
  name : string;
  value : option string;
  domain : string;
  path : string
}.

(** The calls the module makes to its collaborators. *)
Inductive Call :=
| FakerEthereumAddress
| CreateUserSession (args : CreateUserSessionArgs)
| AddCookies (page : Page) (cookies : list Cookie).

(** The world: how many addresses faker has produced so far, and the calls
    made so far, oldest first. *)
Record World := mkWorld {
  draws : nat;
  log : list Call
}.

(** What the module imports.  None of these is defined in the module
    itself. *)
Class Imports := {
  (** The session cookie name exported by
      [user-authentication-session.server]. *)
  USER_AUTHENTICATION_SESSION_NAME : string;
  (** [createUserSession], exported by the same module: it resolves to a
      [Response] or rejects. *)
  createUserSession : CreateUserSessionArgs -> Completion Fetch.Response;
  (** [faker.finance.ethereumAddress()]: the address of the n-th draw. *)
  ethereumAddress : nat -> string;
  (** [parse] of the [cookie] package. *)
  parse : string -> gmap string string;
  (** [BrowserContext.addCookies] of Playwright: it resolves or rejects. *)
  addCookies : Page -> list Cookie -> Completion unit
}.

Definition record (c : Call) : M World unit :=
  modify (fun w => {| draws := draws w; log := log w ++ [c] |}).

Section Injector.
Context `{Imports}.

Definition faker_finance_ethereumAddress : M World string :=
  record FakerEthereumAddress ;;;
  n <- gets draws ;;
  modify (fun w => {| draws := S (draws w); log := log w |}) ;;;
  ret (ethereumAddress n).

Definition generateRandomDid : M World string :=
  address <- faker_finance_ethereumAddress ;;
  ret ("did:ethr:" +:+ address).

Definition call_createUserSession (args : CreateUserSessionArgs)
  : M World Fetch.Response :=
  record (CreateUserSession args) ;;;
  lift (createUserSession args).

Definition call_addCookies (page : Page) (cookies : list Cookie)
  : M World unit :=
  record (AddCookies page cookies) ;;;
  lift (addCookies page cookies).

(** [id = generateRandomDid()] is a default: it is evaluated only when the
    caller passes no [id]. *)
Definition loginByCookie (id : option string) (page : Page) : M World unit :=
  id <- match id with
        | Some i => ret i
        | None => generateRandomDid
        end ;;
  response <- call_createUserSession
                {| redirectTo := "/";
                   remember := false;
                   request := Fetch.new_Request "http://localhost:3000/";
                   userId := id |} ;;
  let cookieValue := Fetch.get (Fetch.headers response) "Set-Cookie" in
  match cookieValue with
  | Some cookieValue =>
      if negb (Js.truthy_string cookieValue)
      then throw (Error "Cookie missing from createUserSession response")
      else
        let parsedCookie := parse cookieValue in
        let token := parsedCookie !! USER_AUTHENTICATION_SESSION_NAME in
        call_addCookies page
          [ {| name := USER_AUTHENTICATION_SESSION_NAME;
               value := token;
               domain := "localhost";
               path := "/" |} ]
  | None => throw (Error "Cookie missing from createUserSession response")
  end.

(** *** Observations of a run, used to state the properties *)

(** The calls a computation adds to the log when started in [w]. *)
Definition trace {A} (m : M World A) (w : World) : list Call :=
  drop (length (log w)) (log (snd (m w))).

Definition outcome {A} (m : M World A) (w : World) : Completion A :=
  fst (m w).

(** The user id a run started in [w] works with. *)
Definition effective_id (id : option string) (w : World) : string :=
  match id with
  | Some i => i
  | None => "did:ethr:" +:+ ethereumAddress (draws w)
  end.

(** The faker calls a run makes before it creates the session. *)
Definition id_calls (id : option string) : list Call :=
  match id with
  | Some _ => []
  | None => [FakerEthereumAddress]
  end.

(** The object a run started in [w] passes to [createUserSession]. *)
Definition session_args (id : option string) (w : World)
  : CreateUserSessionArgs :=
  {| redirectTo := "/";
     remember := false;
     request := Fetch.new_Request "http://localhost:3000/";
     userId := effective_id id w |}.

(** The world in which [createUserSession] answers. *)
Definition world_at_creation (id : option string) (w : World) : World :=
  {| draws := match id with Some _ => draws w | None => S (draws w) end;
     log := log w ++ id_calls id ++ [CreateUserSession (session_args id w)] |}.

(** The cookie built from the value [v] of the [Set-Cookie] header. *)
Definition session_cookie (v : string) : Cookie :=
  {| name := USER_AUTHENTICATION_SESSION_NAME;
     value := parse v !! USER_AUTHENTICATION_SESSION_NAME;
     domain := "localhost";
     path := "/" |}.

Definition missing_cookie_error : Thrown :=
  Error "Cookie missing from createUserSession response".

(** A response carries a header of the given name. *)
Definition has_header (r : Fetch.Response) (header : string) : bool :=
  existsb (fun e => Fetch.same_name (fst e) header) (Fetch.headers r).

End Injector.

(** The imports on which the examples run: a session module that names its
    cookie [sid] and answers every creation by a redirect with the headers
    [h], a faker whose n-th address ends in n, the cookie string reader
    above, and a browser that accepts every cookie. *)
Definition respond_with (h : Fetch.Headers) (args : CreateUserSessionArgs)
  : Completion Fetch.Response :=
  Normal {| Fetch.status := 302; Fetch.headers := ("Location", redirectTo args) :: h |}.

Definition sample_imports (h : Fetch.Headers) : Imports :=
  {| USER_AUTHENTICATION_SESSION_NAME := "sid";
     createUserSession := respond_with h;
     ethereumAddress := fun n => "0x00a329c0648769a73afac7f9381e08fb43dbea7" +:+ pretty n;
     parse := CookieString.parse;
     addCookies := fun _ _ => Normal tt |}.

Definition fresh_world : World := {| draws := 0; log := [] |}.

End TestInjector.


(** ** The root route: [rootLoader] of [app/root.tsx] *)

Module Root.
Import Eff.
Local Open Scope eff_scope.

(** The calls [rootLoader] makes on the request, in the order of the log. *)
Inductive Call :=
| EnforceHttps (request : Fetch.Request)
| GetLocale (request : Fetch.Request)
| GetFixedT (request : Fetch.Request)
| GetToast (request : Fetch.Request).

(** The world: [process.env] and the calls made so far, oldest first. *)
Record World := mkWorld {
  process_env : gmap string string;
  log : list Call
}.

(** [EnvironmentVariables] of [entry.client]. *)
Record EnvironmentVariables := mkEnvironmentVariables {
  ENVIRONMENT : option string;
  SENTRY_DSN : option string
}.

(** What [root.tsx] imports and [rootLoader] uses. *)
Class Imports := {
  (** [Toast] of [utils/toast.server]. *)
  Toast : Type;
  (** [enforceHttps] of [./https]: it returns or throws. *)
  enforceHttps : Fetch.Request -> Completion unit;
  (** [i18next.getLocale]. *)
  getLocale : Fetch.Request -> Completion string;
  (** [i18next.getFixedT]: it resolves to the translation function. *)
  getFixedT : Fetch.Request -> Completion (string -> string);
  (** [getToast] of [utils/toast.server]: the pending toast and the headers
      that clear it. *)
  getToast : Fetch.Request -> Completion (option Toast * option Fetch.Headers);
  (** [combineHeaders] of [utils/combine-headers.server]. *)
  combineHeaders : list (option Fetch.Headers) -> Fetch.Headers
}.

Section Loader.
Context `{Imports}.

Record LoaderData := mkLoaderData {
  ENV : EnvironmentVariables;
  locale : string;
  title : string;
  toast : option Toast
}.

(** The value of [json(data, { headers })]. *)
Record JsonResponse := mkJsonResponse {
  data : LoaderData;
  init_headers : Fetch.Headers
}.

Definition json (d : LoaderData) (h : Fetch.Headers) : JsonResponse :=
  {| data := d; init_headers := h |}.

Definition record (c : Call) : M World unit :=
  modify (fun w => {| process_env := process_env w; log := log w ++ [c] |}).

Definition call_enforceHttps (request : Fetch.Request) : M World unit :=
  record (EnforceHttps request) ;;;
  lift (enforceHttps request).

Definition call_getLocale (request : Fetch.Request) : M World string :=
  record (GetLocale request) ;;;
  lift (getLocale request).

Definition call_getFixedT (request : Fetch.Request)
  : M World (string -> string) :=
  record (GetFixedT request) ;;;
  lift (getFixedT request).

Definition call_getToast (request : Fetch.Request)
  : M World (option Toast * option Fetch.Headers) :=
  record (GetToast request) ;;;
  lift (getToast request).

Definition rootLoader (request : Fetch.Request) : M World JsonResponse :=
  NODE_ENV <- gets (fun w => process_env w !! "NODE_ENV") ;;
  SENTRY_DSN <- gets (fun w => process_env w !! "SENTRY_DSN") ;;
  (if Js.strict_eq (Js.or_else NODE_ENV "production") "production"
   then call_enforceHttps request
   else ret tt) ;;;
  locale <- call_getLocale request ;;
  t <- call_getFixedT request ;;
  let title := t "app-name" in
  toasted <- call_getToast request ;;
  let toast := fst toasted in
  let toastHeaders := snd toasted in
  ret (json
         {| ENV := {| ENVIRONMENT := NODE_ENV; SENTRY_DSN := SENTRY_DSN |};
            locale := locale;
            title := title;
            toast := toast |}
         (combineHeaders [toastHeaders])).

(** *** Observations of a run, used to state the properties *)

Definition trace {A} (m : M World A) (w : World) : list Call :=
  drop (length (log w)) (log (snd (m w))).

Definition outcome {A} (m : M World A) (w : World) : Completion A :=
  fst (m w).

End Loader.

(** The imports on which the examples run.  [enforceHttps] here throws a
    redirect to the [https] address for a request whose [X-Forwarded-Proto]
    header says [http], and returns otherwise. *)
Definition sample_enforceHttps (request : Fetch.Request) : Completion unit :=
  match Fetch.get (Fetch.request_headers request) "X-Forwarded-Proto" with
  | Some proto =>
      if String.eqb proto "http"
      then Throw (ThrownResponse
                    {| Fetch.status := 302;
                       Fetch.headers := [("Location", "https://example.com/")] |})
      else Normal tt
  | None => Normal tt
  end.

Definition sample_imports : Imports :=
  {| Toast := string;
     enforceHttps := sample_enforceHttps;
     getLocale := fun _ => Normal "en";
     getFixedT := fun _ => Normal (fun key => key);
     getToast := fun _ => Normal (None, None);
     combineHeaders := fun hs => concat (omap id hs) |}.

Definition plaintext_request : Fetch.Request :=
  {| Fetch.url := "http://example.com/";
     Fetch.method := "GET";
     Fetch.request_headers := [("X-Forwarded-Proto", "http")] |}.

Definition https_redirect : Fetch.Response :=
  {| Fetch.status := 302;
     Fetch.headers := [("Location", "https://example.com/")] |}.

Definition world_with (env : gmap string string) : World :=
  {| process_env := env; log := [] |}.

End Root.


(** ** Session resolution

    The session module itself ([user-authentication-session.server]) is not
    among the sources.  Its reading side is embedded from the specification
    of the session manager. *)

Module SessionManager.

(** Modelled from the spec: the session record of the data model; the
    module that declares it is missing. *)
Record SessionRecord := mkSessionRecord {
  userId : string;
  createdAt : nat;
  expiresAt : nat;
  remember : bool
}.

(** Modelled from the spec: the three ways in which decoding a token fails;
    the codec is missing. *)
Inductive Failure :=
| Malformed
| TamperedOrInvalidSignature
| Expired.

(** The codec and the cookie name, which the specification leaves to the
    implementation. *)
Class Codec := {
  SESSION_COOKIE_NAME : string;
  decode : string -> Failure + SessionRecord
}.

(** What [resolveSession] hands back: the identity, if any, and whether the
    cookie the request came with is to be cleared by the next response. *)
Record Resolution := mkResolution {
  identity : option string;
  clear_cookie : bool
}.

Section Manager.
Context `{Codec}.

(** Modelled from the spec: the transport adapter's reading of the raw
    value of a named cookie off the request (several cookies in one header,
    exact name match); the adapter is missing. *)
Definition read_cookie (request : Fetch.Request) (cookie_name : string)
  : option string :=
  match Fetch.get (Fetch.request_headers request) "Cookie" with
  | Some header => CookieString.parse header !! cookie_name
  | None => None
  end.

(** Modelled from the spec: [resolveSession] of the session manager, which
    is missing.  No cookie: unauthenticated.  A cookie that decodes: its
    user.  A cookie that fails to decode, for whichever reason:
    unauthenticated, and the cookie is to be cleared. *)
Definition resolveSession (request : Fetch.Request) : Resolution :=
  match read_cookie request SESSION_COOKIE_NAME with
  | None => {| identity := None; clear_cookie := false |}
  | Some raw =>
      match decode raw with
      | inr session => {| identity := Some (userId session); clear_cookie := false |}
      | inl _ => {| identity := None; clear_cookie := true |}
      end
  end.

End Manager.

(** A codec for the examples: a token is the user id behind [u:]. *)
Definition sample_codec : Codec :=
  {| SESSION_COOKIE_NAME := "sid";
     decode := fun token =>
       match token with
       | String "u" (String ":" user) =>
           inr {| userId := user; createdAt := 0; expiresAt := 3600; remember := false |}
       | _ => inl Malformed
       end |}.

End SessionManager.


(** ** The rest of [app/root.tsx]: [shouldRevalidate], [meta], [App],
    [Layout], [ErrorBoundary] *)

Module RootPage.
Import Eff Root.
Local Open Scope eff_scope.

(** The two fields of [ShouldRevalidateFunctionArgs] that
    [shouldRevalidate] reads.  [actionStatus] is an HTTP status, an integer,
    or [undefined]. *)
Record ShouldRevalidateFunctionArgs := mkShouldRevalidateFunctionArgs {
  defaultShouldRevalidate : bool;
  actionStatus : option Z
}.

(** [actionStatus && actionStatus > 399 && actionStatus < 500]: an
    undefined status and the status [0] are falsy. *)
Definition shouldRevalidate (args : ShouldRevalidateFunctionArgs) : bool :=
  if match actionStatus args with
     | Some status =>
         negb (status =? 0)%Z && (399 <? status)%Z && (status <? 500)%Z
     | None => false
     end
  then true
  else defaultShouldRevalidate args.

(** A meta descriptor [{ title }]. *)
Record MetaDescriptor := mkMetaDescriptor {
  meta_title : string
}.

(** A prop of a JSX element: a string, or the object [{ __html }] given to
    [dangerouslySetInnerHTML]. *)
Inductive PropValue :=
| Str (s : string)
| InnerHTML (__html : string).

(** What a component renders: a host element, a component imported from
    elsewhere, a text, or nothing ([false], [null] and [undefined] render
    nothing). *)
#[warnings="-register-all"]
Inductive Node :=
| Host (tag : string) (props : list (string * PropValue)) (children : list Node)
| Component (name : string) (props : list (string * PropValue))
| Text (s : string)
| Nothing.

(** What [useRouteError] hands to the components: a route error response
    (a thrown [Response], with its status and status text) or any other
    thrown object. *)
Inductive RouteError :=
| ErrorResponse (status : Z) (statusText : string)
| OtherError.

(** [isRouteErrorResponse] of [@remix-run/react], the type guard of the
    first case. *)
Definition getIsRouteErrorResponse (error : option RouteError) : bool :=
  match error with
  | Some (ErrorResponse _ _) => true
  | _ => false
  end.

(** [error.status] and [error.statusText]; [undefined] on an object that
    is no route error response. *)
Definition status_of (error : option RouteError) : option Z :=
  match error with
  | Some (ErrorResponse status _) => Some status
  | _ => None
  end.

Definition statusText_of (error : option RouteError) : option string :=
  match error with
  | Some (ErrorResponse _ statusText) => Some statusText
  | _ => None
  end.

(** A value inside a template literal: [undefined] prints as
    [undefined]. *)
Definition interpolate (v : option string) : string :=
  match v with
  | Some s => s
  | None => "undefined"
  end.

(** A member of the dependency array of an effect. *)
Inductive Dep :=
| DepString (s : string)
| DepI18n.

(** The body of the effect of [useChangeLanguage]:
    [i18n.changeLanguage(locale)]. *)
Inductive Effect :=
| ChangeLanguage (locale : string).

Section Page.
Context `{Imports}.

(** [data = { title: 'French House Stack' }] is a default: it stands in
    when the route has no loader data. *)
Definition meta (data : option LoaderData) : list MetaDescriptor :=
  let data_title :=
    match data with
    | Some d => title d
    | None => "French House Stack"
    end in
  [ {| meta_title := data_title |} ].

(** The hooks a render calls, in the order of the calls. *)
Inductive HookCall :=
| UseRouteLoaderData (routeId : string)
| UseTranslation
| UseEffect (effect : Effect) (deps : list Dep)
| UseToast (toast : option Toast)
| UseRouteError.

(** What the hooks answer during one render, and [JSON.stringify] on the
    [ENV] object. *)
Class Hooks := {
  routeLoaderData : string -> option LoaderData;
  i18n_dir : string;
  routeError : option RouteError;
  JSON_stringify : EnvironmentVariables -> string
}.

Context `{Hooks}.

(** A render threads the list of the hook calls made so far. *)
Definition hook (c : HookCall) : M (list HookCall) unit :=
  modify (fun calls => calls ++ [c]).

Definition call_useRouteLoaderData (routeId : string)
  : M (list HookCall) (option LoaderData) :=
  hook (UseRouteLoaderData routeId) ;;;
  ret (routeLoaderData routeId).

Definition call_useTranslation : M (list HookCall) unit :=
  hook UseTranslation.

Definition call_useRouteError : M (list HookCall) (option RouteError) :=
  hook UseRouteError ;;;
  ret routeError.

Definition useChangeLanguage (locale : string) : M (list HookCall) unit :=
  call_useTranslation ;;;
  hook (UseEffect (ChangeLanguage locale) [DepString locale; DepI18n]).

Definition App : M (list HookCall) Node :=
  ret (Component "Outlet" []).

Definition Layout (children : Node) : M (list HookCall) Node :=
  data <- call_useRouteLoaderData "root" ;;
  call_useTranslation ;;;
  let locale := Js.or_else (locale <$> data) "en" in
  useChangeLanguage locale ;;;
  hook (UseToast (data ≫= toast)) ;;;
  error <- call_useRouteError ;;
  let isRouteErrorResponse := getIsRouteErrorResponse error in
  let title :=
    (if isRouteErrorResponse
     then interpolate (pretty <$> status_of error) +:+ " "
          +:+ interpolate (statusText_of error)
     else "Oh no!")
    +:+ " | French House Stack" in
  ret (Host "html"
         [("lang", Str locale); ("className", Str "h-full");
          ("dir", Str i18n_dir)]
         [ Host "head" []
             [ Host "meta" [("charSet", Str "utf-8")] [];
               Host "meta"
                 [("name", Str "viewport");
                  ("content", Str "width=device-width, initial-scale=1")] [];
               match error with
               | Some _ => Host "title" [] [Text title]
               | None => Nothing
               end;
               Component "Meta" [];
               Component "Links" [] ];
           Host "body" [("className", Str "h-full overscroll-none")]
             [ children;
               Component "Toaster" [("position", Str "bottom-right")];
               Component "Scripts" [];
               Component "ScrollRestoration" [];
               match data with
               | Some d =>
                   Host "script"
                     [("dangerouslySetInnerHTML",
                       InnerHTML ("window.ENV = " +:+ JSON_stringify (ENV d)))]
                     []
               | None => Nothing
               end ] ]).

Definition ErrorBoundary : M (list HookCall) Node :=
  error <- call_useRouteError ;;
  let isRouteErrorResponse := getIsRouteErrorResponse error in
  ret (if isRouteErrorResponse
          && match status_of error with
             | Some status => (status =? 404)%Z
             | None => false
             end
       then Component "NotFoundComponent" []
       else Component "GeneralErrorBoundary" []).

(** *** Observations of a render, used to state the properties *)

(** The node and the hook calls of a render started with no call made. *)
Definition rendered {A} (m : M (list HookCall) A) : Completion A :=
  fst (m []).

Definition hooks_called {A} (m : M (list HookCall) A) : list HookCall :=
  snd (m []).

Definition effects_of (calls : list HookCall) : list Effect :=
  flat_map (fun c => match c with UseEffect e _ => [e] | _ => [] end) calls.

End Page.

(** Reading a rendered tree. *)
Definition prop (key : string) (n : Node) : option PropValue :=
  match n with
  | Host _ props _ => snd <$> List.find (fun p => String.eqb (fst p) key) props
  | Component _ props => snd <$> List.find (fun p => String.eqb (fst p) key) props
  | _ => None
  end.

Definition children_of (n : Node) : list Node :=
  match n with
  | Host _ _ children => children
  | _ => []
  end.

Definition has_tag (tag : string) (n : Node) : bool :=
  match n with
  | Host t _ _ => String.eqb t tag
  | _ => false
  end.

(** The first child element of the given tag. *)
Definition child (tag : string) (n : Node) : option Node :=
  List.find (has_tag tag) (children_of n).

(** The children that render something. *)
Definition visible (l : list Node) : list Node :=
  List.filter (fun n => match n with Nothing => false | _ => true end) l.

End RootPage.


(** ** The order of the calls of [rootLoader]

    The loader's calls, listed without running it: what the loader is
    compared with below. *)

Module LoaderPlan.
Import Eff Root.

Section Plan.
Context `{Imports}.

(** The test of the loader's first statement. *)
Definition in_production (w : World) : bool :=
  Js.strict_eq (Js.or_else (process_env w !! "NODE_ENV") "production")
    "production".

Definition thrown {A} (c : Completion A) : option Thrown :=
  match c with
  | Throw x => Some x
  | Normal _ => None
  end.

(** What a call throws, if it throws. *)
Definition thrown_by (c : Call) : option Thrown :=
  match c with
  | EnforceHttps request => thrown (enforceHttps request)
  | GetLocale request => thrown (getLocale request)
  | GetFixedT request => thrown (getFixedT request)
  | GetToast request => thrown (getToast request)
  end.

(** The calls in the order of the source. *)
Definition plan (request : Fetch.Request) (w : World) : list Call :=
  (if in_production w then [EnforceHttps request] else [])
  ++ [GetLocale request; GetFixedT request; GetToast request].

(** The calls of a list up to and including the first one that throws. *)
Fixpoint until_throw (calls : list Call) : list Call :=
  match calls with
  | [] => []
  | c :: rest =>
      match thrown_by c with
      | Some _ => [c]
      | None => c :: until_throw rest
      end
  end.

(** The first throw of a list of calls. *)
Fixpoint first_throw (calls : list Call) : option Thrown :=
  match calls with
  | [] => None
  | c :: rest =>
      match thrown_by c with
      | Some x => Some x
      | None => first_throw rest
      end
  end.

End Plan.

(** Imports for the examples in which the translations cannot be loaded. *)
Definition failing_imports : Imports :=
  {| Toast := string;
     enforceHttps := sample_enforceHttps;
     getLocale := fun _ => Normal "fr";
     getFixedT := fun _ => Throw (Error "no translations");
     getToast := fun _ => Normal (Some "saved", Some [("Set-Cookie", "toast=; Max-Age=0")]);
     combineHeaders := fun hs => concat (omap id hs) |}.

(** Imports for the examples in which every call resolves. *)
Definition french_imports : Imports :=
  {| Toast := string;
     enforceHttps := sample_enforceHttps;
     getLocale := fun _ => Normal "fr";
     getFixedT := fun _ => Normal (fun key => "fr:" +:+ key);
     getToast := fun _ => Normal (Some "saved", Some [("Set-Cookie", "toast=; Max-Age=0")]);
     combineHeaders := fun hs => concat (omap id hs) |}.

(** What the loader answers under [french_imports]. *)
Definition french_response (node_env : option string)
  : JsonResponse (H := french_imports) :=
  @mkJsonResponse french_imports
    (@mkLoaderData french_imports
       {| ENVIRONMENT := node_env; SENTRY_DSN := None |}
       "fr" "fr:app-name" (Some "saved" : option string))
    [("Set-Cookie", "toast=; Max-Age=0")].

End LoaderPlan.


(** ** Hooks for the examples of the page *)

Module PageSamples.
Import Root RootPage LoaderPlan.

(** [JSON.stringify] on an [ENV] whose values need no escaping: a variable
    that is [undefined] is left out. *)
Definition quoted (s : string) : string :=
  String (ascii_of_nat 34) (s +:+ String (ascii_of_nat 34) EmptyString).

Definition sample_stringify (env : EnvironmentVariables) : string :=
  "{"
  +:+ Fetch.join ","
        (omap id
           [ (fun v => quoted "ENVIRONMENT" +:+ ":" +:+ quoted v)
               <$> ENVIRONMENT env;
             (fun v => quoted "SENTRY_DSN" +:+ ":" +:+ quoted v)
               <$> SENTRY_DSN env ])
  +:+ "}".

Definition sample_hooks (d : option (LoaderData (H := french_imports)))
    (e : option RouteError) : Hooks (H := french_imports) :=
  {| routeLoaderData := fun routeId =>
       if String.eqb routeId "root" then d else None;
     i18n_dir := "ltr";
     routeError := e;
     JSON_stringify := sample_stringify |}.

End PageSamples.


(** ** More imports for the test injector *)

Module InjectorSamples.
Import Eff TestInjector.

(** A session module whose [createUserSession] rejects. *)
Definition rejecting_imports : Imports :=
  {| USER_AUTHENTICATION_SESSION_NAME := "sid";
     createUserSession := fun _ => Throw (Error "database unreachable");
     ethereumAddress := fun n => "0x00a329c0648769a73afac7f9381e08fb43dbea7" +:+ pretty n;
     parse := CookieString.parse;
     addCookies := fun _ _ => Normal tt |}.

(** A browser that rejects a cookie without a value. *)
Definition strict_addCookies (page : Page) (cookies : list Cookie)
  : Completion unit :=
  if forallb (fun c => match value c with Some _ => true | None => false end) cookies
  then Normal tt
  else Throw (Error "cookies[0].value: expected string, got undefined").

Definition strict_imports (h : Fetch.Headers) : Imports :=
  {| USER_AUTHENTICATION_SESSION_NAME := "sid";
     createUserSession := respond_with h;
     ethereumAddress := fun n => "0x00a329c0648769a73afac7f9381e08fb43dbea7" +:+ pretty n;
     parse := CookieString.parse;
     addCookies := strict_addCookies |}.

End InjectorSamples.


(** ** The exported [loader]: [rootLoader] behind [rootAuthLoader] *)

Module RootRoute.
Import Eff Root.
Local Open Scope eff_scope.

(** The argument of a loader, of which [rootLoader] reads [request]. *)
Record LoaderFunctionArgs := mkLoaderFunctionArgs {
  request : Fetch.Request;
  params : list (string * string)
}.

(** The calls made while the route's [loader] runs: the call of
    [rootAuthLoader], and the calls [rootLoader] makes once it is invoked as
    the callback. *)
Inductive RouteCall :=
| RootAuthLoader (arguments_ : LoaderFunctionArgs)
| Callback (c : Call).

Record RouteWorld := mkRouteWorld {
  route_env : gmap string string;
  route_log : list RouteCall
}.

Section Route.
Context `{Imports}.

(** What [rootAuthLoader] of [@clerk/remix/ssr.server] does with its
    arguments: it answers on its own, or it invokes the callback on some
    arguments and makes its answer of the callback's completion. *)
Inductive Wrapping :=
| Respond (c : Completion Fetch.Response)
| Invoke (arguments_ : LoaderFunctionArgs)
    (finish : Completion JsonResponse -> Completion Fetch.Response).

(** [rootLoader], run as a callback of the route: its calls go to the log
    of the route. *)
Definition as_callback {A} (m : M World A) : M RouteWorld A :=
  fun rw =>
    let run := m {| process_env := route_env rw; log := [] |} in
    (fst run,
     {| route_env := process_env (snd run);
        route_log := route_log rw ++ map Callback (log (snd run)) |}).

Definition loader (rootAuthLoader : LoaderFunctionArgs -> Wrapping)
    (arguments_ : LoaderFunctionArgs) : M RouteWorld Fetch.Response :=
  modify (fun rw => {| route_env := route_env rw;
                       route_log := route_log rw ++ [RootAuthLoader arguments_] |}) ;;;
  match rootAuthLoader arguments_ with
  | Respond c => lift c
  | Invoke callback_arguments finish =>
      fun rw =>
        let run := as_callback (rootLoader (request callback_arguments)) rw in
        (finish (fst run), snd run)
  end.

(** The calls a run of the route adds to the log. *)
Definition route_trace {A} (m : M RouteWorld A) (rw : RouteWorld)
  : list RouteCall :=
  drop (length (route_log rw)) (route_log (snd (m rw))).

(** A wrapper that does nothing of its own: it invokes the callback on the
    arguments it got and answers with the headers of the callback's
    response. *)
Definition passing_wrapper (arguments_ : LoaderFunctionArgs) : Wrapping :=
  Invoke arguments_
    (fun c =>
       match c with
       | Normal r => Normal {| Fetch.status := 200; Fetch.headers := init_headers r |}
       | Throw x => Throw x
       end).

End Route.

Definition route_world_with (env : gmap string string) : RouteWorld :=
  {| route_env := env; route_log := [] |}.

End RootRoute.


(** ** The session module as the injector sees it

    [user-authentication-session.server], from which the injector imports
    [createUserSession] and [USER_AUTHENTICATION_SESSION_NAME], is not among
    the sources.  Its creating side is embedded from the specification, next
    to the resolving side above, so that the three users of the cookie name
    can be put side by side. *)

Module SessionModule.
Import Eff SessionManager.

(** Modelled from the spec: what creation needs besides the cookie name and
    is left to the implementation, the codec's [encode], the clock, the two
    durations of the policy and whether the cookie is [Secure]; the module
    that fixes them is missing. *)
Class Issuer := {
  encode : SessionRecord -> string;
  now : nat;
  defaultDuration : nat;
  rememberDuration : nat;
  secure : bool
}.

(** Modelled from the spec: the transport instruction, a cookie to set
    ([Path=/], [HttpOnly] and [SameSite=Lax] are fixed); its declaration is
    missing. *)
Record TransportInstruction := mkTransportInstruction {
  instruction_name : string;
  instruction_value : string;
  maxAge : nat;
  secureOnly : bool
}.

(** A string without any of the given characters. *)
Fixpoint free_of (bad : ascii -> bool) (s : string) : bool :=
  match s with
  | EmptyString => true
  | String c s' => negb (bad c) && free_of bad s'
  end.

(** Characters a cookie string gives a meaning to: white space, [;], the
    double quote and [%]. *)
Definition is_special (c : ascii) : bool :=
  Ascii.is_space c
  || Ascii.eqb c ";"
  || (nat_of_ascii c =? 34)
  || Ascii.eqb c "%".

(** A value that a cookie string carries as it is. *)
Definition plain_value (s : string) : bool := free_of is_special s.

(** A name that a cookie string carries as it is. *)
Definition plain_name (s : string) : bool :=
  free_of (fun c => is_special c || Ascii.eqb c "=") s.

Section Creation.
Context `{Codec}.
Context `{Issuer}.

(** Modelled from the spec: the duration policy, selected by [remember]. *)
Definition duration (remember : bool) : nat :=
  if remember then rememberDuration else defaultDuration.

(** Modelled from the spec: [createSession] of the session manager, which
    is missing.  The record expires a duration after its creation; the
    instruction sets the token of the record under the session cookie
    name. *)
Definition createSession (userId : string) (remember : bool)
    (requestContext : Fetch.Request) : SessionRecord * TransportInstruction :=
  let record :=
    {| SessionManager.userId := userId;
       createdAt := now;
       expiresAt := now + duration remember;
       SessionManager.remember := remember |} in
  (record,
   {| instruction_name := SESSION_COOKIE_NAME;
      instruction_value := encode record;
      maxAge := duration remember;
      secureOnly := secure |}).

(** Modelled from the spec: the transport adapter's [Set-Cookie] value for
    an instruction; the adapter is missing. *)
Definition set_cookie (t : TransportInstruction) : string :=
  instruction_name t +:+ "=" +:+ instruction_value t
  +:+ "; Max-Age=" +:+ pretty (maxAge t)
  +:+ "; Path=/; HttpOnly; SameSite=Lax"
  +:+ (if secureOnly t then "; Secure" else "").

(** Modelled from the spec: [createUserSession], which is missing, as the
    injector calls it: the redirect that carries the [Set-Cookie] header of
    the session created for [userId]. *)
Definition createUserSession (args : TestInjector.CreateUserSessionArgs)
  : Completion Fetch.Response :=
  let created :=
    createSession (TestInjector.userId args) (TestInjector.remember args)
      (TestInjector.request args) in
  Normal {| Fetch.status := 302;
            Fetch.headers :=
              [ ("Location", TestInjector.redirectTo args);
                ("Set-Cookie", set_cookie (snd created)) ] |}.

(** The imports of the injector when they come from this module: the
    exported name is the module's one cookie name. *)
Definition injector_imports (ethereumAddress : nat -> string)
    (addCookies : TestInjector.Page -> list TestInjector.Cookie -> Completion unit)
  : TestInjector.Imports :=
  {| TestInjector.USER_AUTHENTICATION_SESSION_NAME := SESSION_COOKIE_NAME;
     TestInjector.createUserSession := createUserSession;
     TestInjector.ethereumAddress := ethereumAddress;
     TestInjector.parse := CookieString.parse;
     TestInjector.addCookies := addCookies |}.

(** The token creation issues to the user a run of the injector logs in. *)
Definition issued_token (user : string) : string :=
  encode (fst (createSession user false
                 (Fetch.new_Request "http://localhost:3000/"))).

End Creation.

(** The request of a browser whose jar holds the cookie. *)
Definition request_bearing (u : string) (c : TestInjector.Cookie)
  : Fetch.Request :=
  {| Fetch.url := u;
     Fetch.method := "GET";
     Fetch.request_headers :=
       match TestInjector.value c with
       | Some v => [("Cookie", TestInjector.name c +:+ "=" +:+ v)]
       | None => []
       end |}.

(** An issuer for the examples, the counterpart of [sample_codec]. *)
Definition sample_issuer : Issuer :=
  {| encode := fun record => "u:" +:+ userId record;
     now := 1000;
     defaultDuration := 600;
     rememberDuration := 3600;
     secure := true |}.

End SessionModule.


(** * Properties *)

(** ** JavaScript truthiness and header lookup *)

Module JsFacts.

Lemma truthy_string_false s : Js.truthy_string s = false <-> s = "".
Proof.
  unfold Js.truthy_string. rewrite negb_false_iff. apply String.eqb_eq.
Qed.

Lemma truthy_string_true s : Js.truthy_string s = true <-> s <> "".
Proof.
  unfold Js.truthy_string. rewrite negb_true_iff. apply String.eqb_neq.
Qed.

Lemma strict_eq_true a b : Js.strict_eq a b = true <-> a = b.
Proof. apply String.eqb_eq. Qed.

(** [x || 'production'] is ['production'] exactly when [x] is undefined,
    empty, or ['production'] itself. *)
Lemma or_else_production (x : option string) :
  Js.or_else x "production" = "production" <->
  x = None \/ x = Some "" \/ x = Some "production".
Proof.
  unfold Js.or_else. destruct x as [s|]; [|tauto].
  destruct (Js.truthy_string s) eqn:E.
  - apply truthy_string_true in E. split.
    + intros ->. right. right. reflexivity.
    + intros [Hn | [He | Hp]]; [discriminate | congruence | congruence].
  - apply truthy_string_false in E. subst s. tauto.
Qed.

End JsFacts.

Module FetchFacts.

(** [get] answers [null] exactly when no entry of the list has the name. *)
Lemma get_None (h : Fetch.Headers) (header : string) :
  Fetch.get h header = None <->
  (forall n v, In (n, v) h -> Fetch.same_name n header = false).
Proof.
  unfold Fetch.get, Fetch.values_of.
  set (keep := fun e : string * string => Fetch.same_name (fst e) header).
  split.
  - intros Hg n v Hin.
    destruct (Fetch.same_name n header) eqn:E; [|reflexivity].
    assert (Hf : In (n, v) (List.filter keep h))
      by (apply filter_In; split; [exact Hin | exact E]).
    destruct (List.filter keep h) as [|e l]; [destruct Hf | discriminate Hg].
  - intros Hall.
    destruct (List.filter keep h) as [|[n v] l] eqn:E; [reflexivity|].
    assert (Hf : In (n, v) (List.filter keep h))
      by (rewrite E; left; reflexivity).
    apply filter_In in Hf. destruct Hf as [Hin Hs]. unfold keep in Hs.
    simpl in Hs. rewrite (Hall n v Hin) in Hs. discriminate Hs.
Qed.

Lemma get_Some_entry (h : Fetch.Headers) (header v : string) :
  Fetch.get h header = Some v ->
  exists n x, In (n, x) h /\ Fetch.same_name n header = true.
Proof.
  intros Hg.
  destruct (List.filter (fun e => Fetch.same_name (fst e) header) h)
    as [|[n x] l] eqn:E.
  - unfold Fetch.get, Fetch.values_of in Hg. rewrite E in Hg. discriminate Hg.
  - exists n, x. apply (filter_In (fun e => Fetch.same_name (fst e) header)).
    rewrite E. left. reflexivity.
Qed.

Example get_is_case_insensitive :
  Fetch.get [("Location", "/"); ("set-cookie", "sid=t; Path=/")] "Set-Cookie"
  = Some "sid=t; Path=/".
Proof. reflexivity. Qed.

Example get_joins_values :
  Fetch.get [("Set-Cookie", "a=1"); ("Set-Cookie", "b=2")] "Set-Cookie"
  = Some "a=1, b=2".
Proof. reflexivity. Qed.

End FetchFacts.

Module CookieStringFacts.

Example parse_set_cookie :
  CookieString.parse "sid=abc.def; Path=/; HttpOnly; SameSite=Lax"
  = <["sid" := "abc.def"]> (<["Path" := "/"]> (<["SameSite" := "Lax"]> ∅)).
Proof. vm_compute. reflexivity. Qed.

Example parse_first_wins :
  CookieString.parse "a=1; b=2; a=3" !! "a" = Some "1".
Proof. vm_compute. reflexivity. Qed.

Example parse_exact_name :
  CookieString.parse "sidx=1; xsid=2" !! "sid" = None.
Proof. vm_compute. reflexivity. Qed.

End CookieStringFacts.


(** ** The test injector *)

Module InjectorProps.
Import Eff TestInjector.

Ltac run_injector :=
  unfold loginByCookie, generateRandomDid, faker_finance_ethereumAddress,
    call_createUserSession, call_addCookies, record, bind, ret, throw, lift,
    modify, gets;
  simpl.

Section Runs.
Context `{Imports}.

(** The calls of a run are what it appends to the log. *)
Lemma injector_trace_appended {A} (m : M World A) (w : World) (calls : list Call) :
  log (snd (m w)) = log w ++ calls -> trace m w = calls.
Proof.
  intros E. unfold trace. rewrite E. apply drop_app_length.
Qed.

(** Every run reaches [createUserSession], in the world
    [world_at_creation]. *)
Lemma run_to_creation (id : option string) (page : Page) (w : World) :
  loginByCookie id page w =
  match createUserSession (session_args id w) with
  | Throw x => (Throw x, world_at_creation id w)
  | Normal response =>
      match Fetch.get (Fetch.headers response) "Set-Cookie" with
      | Some v =>
          if Js.truthy_string v
          then (addCookies page [session_cookie v],
                {| draws := draws (world_at_creation id w);
                   log := log (world_at_creation id w)
                          ++ [AddCookies page [session_cookie v]] |})
          else (Throw missing_cookie_error, world_at_creation id w)
      | None => (Throw missing_cookie_error, world_at_creation id w)
      end
  end.
Proof.
  unfold world_at_creation, session_args, effective_id, id_calls.
  destruct id as [i|]; run_injector.
  - destruct (createUserSession _) as [r|x]; [|reflexivity].
    destruct (Fetch.get _ _) as [v|]; [|reflexivity].
    destruct (Js.truthy_string v); simpl; [|reflexivity].
    destruct (addCookies _ _); reflexivity.
  - rewrite <- app_assoc. simpl.
    destruct (createUserSession _) as [r|x]; [|reflexivity].
    destruct (Fetch.get _ _) as [v|]; [|reflexivity].
    destruct (Js.truthy_string v); simpl; [|reflexivity].
    destruct (addCookies _ _); reflexivity.
Qed.

Lemma get_without_header (response : Fetch.Response) (header : string) :
  has_header response header = false ->
  Fetch.get (Fetch.headers response) header = None.
Proof.
  unfold has_header. intros Hno. apply FetchFacts.get_None. intros n v Hin.
  destruct (Fetch.same_name n header) eqn:E; [|reflexivity].
  rewrite <- Hno. symmetry. apply existsb_exists.
  exists (n, v). split; [exact Hin | exact E].
Qed.

(** The two shapes of a run: it stops after [createUserSession], or it
    goes on to a single [addCookies] with the session cookie. *)
Lemma loginByCookie_creates_session_calls (id : option string) (page : Page)
    (w : World) :
  trace (loginByCookie id page) w =
    id_calls id ++ [CreateUserSession (session_args id w)]
  \/ exists response v,
       createUserSession (session_args id w) = Normal response
       /\ Fetch.get (Fetch.headers response) "Set-Cookie" = Some v
       /\ trace (loginByCookie id page) w =
            id_calls id ++
            [CreateUserSession (session_args id w);
             AddCookies page [session_cookie v]].
Proof.
  assert (Hrun := run_to_creation id page w).
  destruct (createUserSession (session_args id w)) as [r|x] eqn:Ec.
  - destruct (Fetch.get (Fetch.headers r) "Set-Cookie") as [v|] eqn:Eg.
    + destruct (Js.truthy_string v) eqn:Et.
      * right. exists r, v. split; [reflexivity|]. split; [exact Eg|].
        apply injector_trace_appended. rewrite Hrun. simpl.
        rewrite <- !app_assoc. reflexivity.
      * left. apply injector_trace_appended. rewrite Hrun. reflexivity.
    + left. apply injector_trace_appended. rewrite Hrun. reflexivity.
  - left. apply injector_trace_appended. rewrite Hrun. reflexivity.
Qed.

(** C4. Every run of [loginByCookie] calls [createUserSession] exactly
    once, with [remember] false, the redirect target [/] and a request
    object built on the spot for [http://localhost:3000/] (a GET without
    headers, not a request that came in).  The user id it passes is the
    caller's; when the caller gave none it is [did:ethr:] followed by an
    address drawn from faker during this very run, and the draw is consumed.
    Whatever follows the creation is at most one [addCookies] call. *)
Theorem loginByCookie_creates_session (id : option string) (page : Page)
    (w : World) :
  exists rest,
    trace (loginByCookie id page) w =
      match id with
      | Some _ => []
      | None => [FakerEthereumAddress]
      end ++
      CreateUserSession
        {| redirectTo := "/";
           remember := false;
           request := {| Fetch.url := "http://localhost:3000/";
                         Fetch.method := "GET";
                         Fetch.request_headers := [] |};
           userId := match id with
                     | Some i => i
                     | None => "did:ethr:" +:+ ethereumAddress (draws w)
                     end |} :: rest
    /\ (rest = [] \/ exists cookie, rest = [AddCookies page [cookie]])
    /\ draws (snd (loginByCookie id page w)) =
       match id with
       | Some _ => draws w
       | None => S (draws w)
       end.
Proof.
  assert (Hrun := run_to_creation id page w).
  assert (Hdraws : draws (world_at_creation id w) =
                   match id with Some _ => draws w | None => S (draws w) end)
    by reflexivity.
  destruct (createUserSession (session_args id w)) as [r|x] eqn:Ec.
  - destruct (Fetch.get (Fetch.headers r) "Set-Cookie") as [v|] eqn:Eg.
    + destruct (Js.truthy_string v) eqn:Et.
      * exists [AddCookies page [session_cookie v]].
        split; [|split].
        -- apply injector_trace_appended. rewrite Hrun. simpl.
           rewrite <- !app_assoc. reflexivity.
        -- right. eexists. reflexivity.
        -- rewrite Hrun. exact Hdraws.
      * exists []. split; [|split].
        -- apply injector_trace_appended. rewrite Hrun. reflexivity.
        -- left. reflexivity.
        -- rewrite Hrun. exact Hdraws.
    + exists []. split; [|split].
      * apply injector_trace_appended. rewrite Hrun. reflexivity.
      * left. reflexivity.
      * rewrite Hrun. exact Hdraws.
  - exists []. split; [|split].
    + apply injector_trace_appended. rewrite Hrun. reflexivity.
    + left. reflexivity.
    + rewrite Hrun. exact Hdraws.
Qed.

(** C2. When the response of [createUserSession] carries no [Set-Cookie]
    header, [loginByCookie] throws the error [Cookie missing from
    createUserSession response]; it does not return normally and it never
    reaches [addCookies]. *)
Theorem loginByCookie_throws_without_set_cookie (id : option string)
    (page : Page) (w : World) (response : Fetch.Response) :
  createUserSession (session_args id w) = Normal response ->
  has_header response "Set-Cookie" = false ->
  outcome (loginByCookie id page) w =
    Throw (Error "Cookie missing from createUserSession response")
  /\ trace (loginByCookie id page) w =
       id_calls id ++ [CreateUserSession (session_args id w)].
Proof.
  intros Ec Hno. apply get_without_header in Hno. split.
  - unfold outcome. rewrite run_to_creation, Ec, Hno. reflexivity.
  - apply injector_trace_appended. rewrite run_to_creation, Ec, Hno. reflexivity.
Qed.

(** C5. A run of [loginByCookie] that returns normally has made exactly
    these calls: the faker draw when no id was given, [createUserSession]
    (a function call on a request object that is never sent), and one
    [addCookies] on the page's context with a single cookie, whose name is
    the session cookie constant, whose value is what the parsed [Set-Cookie]
    header of the response holds under exactly that name, whose domain is
    [localhost] and whose path is [/]. *)
Theorem loginByCookie_installs_session_cookie (id : option string)
    (page : Page) (w : World) :
  outcome (loginByCookie id page) w = Normal tt ->
  exists response v,
    createUserSession (session_args id w) = Normal response
    /\ Fetch.get (Fetch.headers response) "Set-Cookie" = Some v
    /\ trace (loginByCookie id page) w =
         id_calls id ++
         [ CreateUserSession (session_args id w);
           AddCookies page
             [ {| name := USER_AUTHENTICATION_SESSION_NAME;
                  value := parse v !! USER_AUTHENTICATION_SESSION_NAME;
                  domain := "localhost";
                  path := "/" |} ] ]
    /\ addCookies page
         [ {| name := USER_AUTHENTICATION_SESSION_NAME;
              value := parse v !! USER_AUTHENTICATION_SESSION_NAME;
              domain := "localhost";
              path := "/" |} ] = Normal tt.
Proof.
  unfold outcome. intros Hok.
  assert (Hrun := run_to_creation id page w).
  destruct (createUserSession (session_args id w)) as [r|x] eqn:Ec;
    [|rewrite Hrun in Hok; discriminate Hok].
  destruct (Fetch.get (Fetch.headers r) "Set-Cookie") as [v|] eqn:Eg;
    [|rewrite Hrun in Hok; discriminate Hok].
  destruct (Js.truthy_string v) eqn:Et;
    [|rewrite Hrun in Hok; discriminate Hok].
  exists r, v. split; [reflexivity|]. split; [exact Eg|]. split.
  - apply injector_trace_appended. rewrite Hrun. simpl.
    rewrite <- !app_assoc. reflexivity.
  - rewrite Hrun in Hok. exact Hok.
Qed.

(** The injector's side of the cookie name.  The injector knows the
    session cookie by one name only, the
    imported [USER_AUTHENTICATION_SESSION_NAME]: whenever a run hands a
    cookie to [addCookies], the name of that cookie is the constant, and its
    value is what the parsed [Set-Cookie] header of the response holds under
    that same name.  The statement holds for every value of the constant:
    the module spells the name nowhere else. *)
Theorem loginByCookie_uses_the_imported_name (id : option string)
    (page p : Page) (w : World) (cookies : list Cookie) (cookie : Cookie) :
  In (AddCookies p cookies) (trace (loginByCookie id page) w) ->
  In cookie cookies ->
  name cookie = USER_AUTHENTICATION_SESSION_NAME
  /\ exists response v,
       createUserSession (session_args id w) = Normal response
       /\ Fetch.get (Fetch.headers response) "Set-Cookie" = Some v
       /\ value cookie = parse v !! name cookie.
Proof.
  intros Hcall Hin.
  destruct (loginByCookie_creates_session_calls id page w) as [Hshort | Hfull].
  - rewrite Hshort in Hcall. apply in_app_or in Hcall.
    destruct Hcall as [Hc | [Hc | []]]; [|discriminate Hc].
    destruct id; simpl in Hc; [destruct Hc | destruct Hc as [Hc | []]].
    discriminate Hc.
  - destruct Hfull as (r & v & Ec & Eg & Htrace).
    rewrite Htrace in Hcall. apply in_app_or in Hcall.
    destruct Hcall as [Hc | [Hc | [Hc | []]]].
    + destruct id; simpl in Hc; [destruct Hc | destruct Hc as [Hc | []]].
      discriminate Hc.
    + discriminate Hc.
    + injection Hc as <- <-. destruct Hin as [<- | []].
      split; [reflexivity|]. exists r, v. simpl. auto.
Qed.

(** C10, amended. The check looks at the header value only, not at what
    the value holds.  When the response of [createUserSession] has a
    [Set-Cookie] header whose value is not empty and holds no entry under
    the session cookie name, [loginByCookie] does not throw its error: it
    calls [addCookies] with a cookie of that name whose value is
    [undefined], and completes the way that call completes. *)
Theorem loginByCookie_installs_undefined_value (id : option string)
    (page : Page) (w : World) (response : Fetch.Response) (v : string) :
  createUserSession (session_args id w) = Normal response ->
  Fetch.get (Fetch.headers response) "Set-Cookie" = Some v ->
  v <> "" ->
  parse v !! USER_AUTHENTICATION_SESSION_NAME = None ->
  outcome (loginByCookie id page) w =
    addCookies page
      [ {| name := USER_AUTHENTICATION_SESSION_NAME;
           value := None;
           domain := "localhost";
           path := "/" |} ]
  /\ trace (loginByCookie id page) w =
       id_calls id ++
       [ CreateUserSession (session_args id w);
         AddCookies page
           [ {| name := USER_AUTHENTICATION_SESSION_NAME;
                value := None;
                domain := "localhost";
                path := "/" |} ] ].
Proof.
  intros Ec Eg Hv Hnone.
  apply JsFacts.truthy_string_true in Hv.
  assert (Hrun := run_to_creation id page w).
  rewrite Ec, Eg, Hv in Hrun. unfold session_cookie in Hrun.
  rewrite Hnone in Hrun. split.
  - unfold outcome. rewrite Hrun. reflexivity.
  - apply injector_trace_appended. rewrite Hrun. simpl.
    rewrite <- !app_assoc. reflexivity.
Qed.

End Runs.

(** *** Runs on the sample imports *)

(** A run without an id draws one address and logs in the user it names. *)
Example login_forged_session :
  loginByCookie
    (H := sample_imports [("Set-Cookie", "sid=tok; Path=/; HttpOnly; SameSite=Lax")])
    None (mkPage 1) fresh_world
  = (Normal tt,
     {| draws := 1;
        log := [ FakerEthereumAddress;
                 CreateUserSession
                   {| redirectTo := "/";
                      remember := false;
                      request := Fetch.new_Request "http://localhost:3000/";
                      userId := "did:ethr:0x00a329c0648769a73afac7f9381e08fb43dbea70" |};
                 AddCookies (mkPage 1)
                   [ {| name := "sid"; value := Some "tok";
                        domain := "localhost"; path := "/" |} ] ] |}).
Proof. vm_compute. reflexivity. Qed.

(** Two runs without an id, one after the other, log in two users. *)
Example login_twice_draws_twice :
  let imports := sample_imports [("Set-Cookie", "sid=tok")] in
  let first := loginByCookie (H := imports) None (mkPage 1) fresh_world in
  let second := loginByCookie (H := imports) None (mkPage 2) (snd first) in
  effective_id (H := imports) None fresh_world
    = "did:ethr:0x00a329c0648769a73afac7f9381e08fb43dbea70"
  /\ effective_id (H := imports) None (snd first)
    = "did:ethr:0x00a329c0648769a73afac7f9381e08fb43dbea71"
  /\ draws (snd second) = 2.
Proof. vm_compute. repeat split. Qed.

(** C10, as stated, fails on a response whose [Set-Cookie] header is there
    with an empty value: the header is present, nothing in it is named after
    the session cookie, and yet the run throws the missing-cookie error
    before any [addCookies]. *)
Lemma loginByCookie_empty_set_cookie_throws :
  exists response,
    createUserSession (Imports := sample_imports [("Set-Cookie", "")])
      (session_args (H := sample_imports [("Set-Cookie", "")])
         (Some "did:ethr:0xabc") fresh_world) = Normal response
    /\ has_header response "Set-Cookie" = true
    /\ Fetch.get (Fetch.headers response) "Set-Cookie" = Some ""
    /\ CookieString.parse "" !! "sid" = None
    /\ outcome
         (loginByCookie (H := sample_imports [("Set-Cookie", "")])
            (Some "did:ethr:0xabc") (mkPage 1)) fresh_world
       = Throw (Error "Cookie missing from createUserSession response")
    /\ trace
         (loginByCookie (H := sample_imports [("Set-Cookie", "")])
            (Some "did:ethr:0xabc") (mkPage 1)) fresh_world
       = [ CreateUserSession
             {| redirectTo := "/";
                remember := false;
                request := Fetch.new_Request "http://localhost:3000/";
                userId := "did:ethr:0xabc" |} ].
Proof.
  eexists. split; [reflexivity|].
  repeat split; vm_compute; reflexivity.
Qed.

Lemma loginByCookie_throws_without_set_cookie_witness :
  outcome (loginByCookie (H := sample_imports []) None (mkPage 1)) fresh_world
  = Throw (Error "Cookie missing from createUserSession response")
  /\ trace (loginByCookie (H := sample_imports []) None (mkPage 1)) fresh_world
     = id_calls None
       ++ [CreateUserSession (session_args (H := sample_imports []) None fresh_world)].
Proof.
  apply (loginByCookie_throws_without_set_cookie (H := sample_imports [])
           None (mkPage 1) fresh_world
           {| Fetch.status := 302; Fetch.headers := [("Location", "/")] |}).
  - reflexivity.
  - reflexivity.
Defined.

Lemma loginByCookie_installs_session_cookie_witness :
  exists response v,
    respond_with [("Set-Cookie", "sid=tok; Path=/; HttpOnly")]
      {| redirectTo := "/";
         remember := false;
         request := Fetch.new_Request "http://localhost:3000/";
         userId := "did:ethr:0xabc" |} = Normal response
    /\ Fetch.get (Fetch.headers response) "Set-Cookie" = Some v
    /\ trace
         (loginByCookie
            (H := sample_imports [("Set-Cookie", "sid=tok; Path=/; HttpOnly")])
            (Some "did:ethr:0xabc") (mkPage 1)) fresh_world
       = [ CreateUserSession
             {| redirectTo := "/";
                remember := false;
                request := Fetch.new_Request "http://localhost:3000/";
                userId := "did:ethr:0xabc" |};
           AddCookies (mkPage 1)
             [ {| name := "sid";
                  value := CookieString.parse v !! "sid";
                  domain := "localhost";
                  path := "/" |} ] ]
    /\ Normal tt = Normal tt.
Proof.
  apply (loginByCookie_installs_session_cookie
           (H := sample_imports [("Set-Cookie", "sid=tok; Path=/; HttpOnly")])
           (Some "did:ethr:0xabc") (mkPage 1) fresh_world).
  vm_compute. reflexivity.
Defined.

Lemma loginByCookie_uses_the_imported_name_witness :
  name {| name := "sid"; value := Some "tok";
          domain := "localhost"; path := "/" |} = "sid"
  /\ exists response v,
       respond_with [("Set-Cookie", "sid=tok; Path=/; HttpOnly")]
         {| redirectTo := "/";
            remember := false;
            request := Fetch.new_Request "http://localhost:3000/";
            userId := "did:ethr:0xabc" |} = Normal response
       /\ Fetch.get (Fetch.headers response) "Set-Cookie" = Some v
       /\ Some "tok" = CookieString.parse v !! "sid".
Proof.
  apply (loginByCookie_uses_the_imported_name
           (H := sample_imports [("Set-Cookie", "sid=tok; Path=/; HttpOnly")])
           (Some "did:ethr:0xabc") (mkPage 1) (mkPage 1) fresh_world
           [ {| name := "sid"; value := Some "tok";
                domain := "localhost"; path := "/" |} ]
           {| name := "sid"; value := Some "tok";
              domain := "localhost"; path := "/" |}).
  - vm_compute. right. left. reflexivity.
  - left. reflexivity.
Defined.

Lemma loginByCookie_installs_undefined_value_witness :
  outcome
    (loginByCookie (H := sample_imports [("Set-Cookie", "other=1; Path=/")])
       (Some "did:ethr:0xabc") (mkPage 1)) fresh_world
  = Normal tt
  /\ trace
       (loginByCookie (H := sample_imports [("Set-Cookie", "other=1; Path=/")])
          (Some "did:ethr:0xabc") (mkPage 1)) fresh_world
     = [ CreateUserSession
           {| redirectTo := "/";
              remember := false;
              request := Fetch.new_Request "http://localhost:3000/";
              userId := "did:ethr:0xabc" |};
         AddCookies (mkPage 1)
           [ {| name := "sid"; value := None;
                domain := "localhost"; path := "/" |} ] ].
Proof.
  apply (loginByCookie_installs_undefined_value
           (H := sample_imports [("Set-Cookie", "other=1; Path=/")])
           (Some "did:ethr:0xabc") (mkPage 1) fresh_world
           {| Fetch.status := 302;
              Fetch.headers := [("Location", "/"); ("Set-Cookie", "other=1; Path=/")] |}
           "other=1; Path=/").
  - reflexivity.
  - reflexivity.
  - discriminate.
  - vm_compute. reflexivity.
Defined.

End InjectorProps.


(** ** The root loader *)

Module RootProps.
Import Eff Root.

Ltac run_loader :=
  unfold rootLoader, call_enforceHttps, call_getLocale, call_getFixedT,
    call_getToast, record, json, bind, ret, throw, lift, modify, gets;
  simpl.

Ltac split_completions :=
  repeat match goal with
         | |- context [match ?c with Normal _ => _ | Throw _ => _ end] =>
             destruct c
         end.

Section Runs.
Context `{Imports}.

Lemma loader_trace_appended {A} (m : M World A) (w : World) (calls : list Call) :
  log (snd (m w)) = log w ++ calls -> trace m w = calls.
Proof.
  intros E. unfold trace. rewrite E. apply drop_app_length.
Qed.

(** When the test of the loader's first statement holds, the first call of
    the run is [enforceHttps], and a throw of [enforceHttps] ends the run on
    the spot. *)
Lemma rootLoader_guarded (request : Fetch.Request) (w : World) :
  Js.or_else (process_env w !! "NODE_ENV") "production" = "production" ->
  (exists rest,
      trace (rootLoader request) w = EnforceHttps request :: rest)
  /\ (forall x,
         enforceHttps request = Throw x ->
         outcome (rootLoader request) w = Throw x
         /\ trace (rootLoader request) w = [EnforceHttps request]).
Proof.
  intros Hprod. split.
  - assert (Hlog : exists rest,
               log (snd (rootLoader request w))
               = log w ++ EnforceHttps request :: rest).
    { run_loader. rewrite Hprod. simpl.
      split_completions; simpl; rewrite <- ?app_assoc; simpl;
        eexists; reflexivity. }
    destruct Hlog as [rest Hlog]. exists rest.
    apply loader_trace_appended. exact Hlog.
  - intros x Hx. split.
    + unfold outcome. run_loader. rewrite Hprod. simpl. rewrite Hx.
      reflexivity.
    + apply loader_trace_appended. run_loader. rewrite Hprod. simpl. rewrite Hx.
      reflexivity.
Qed.

(** Outside production the loader starts with the locale: the check is not
    run at all. *)
Lemma rootLoader_unguarded (request : Fetch.Request) (w : World) (e : string) :
  process_env w !! "NODE_ENV" = Some e ->
  e <> "" ->
  e <> "production" ->
  exists rest,
    trace (rootLoader request) w = GetLocale request :: rest
    /\ ~ In (EnforceHttps request) rest.
Proof.
  intros He Hne Hnp.
  assert (Htest : Js.strict_eq (Js.or_else (Some e) "production") "production"
                  = false).
  { unfold Js.strict_eq. apply String.eqb_neq. simpl.
    apply JsFacts.truthy_string_true in Hne. rewrite Hne. exact Hnp. }
  assert (Hlog : exists rest,
             log (snd (rootLoader request w)) = log w ++ GetLocale request :: rest
             /\ ~ In (EnforceHttps request) rest).
  { run_loader. rewrite He, Htest. simpl.
    split_completions; simpl; rewrite <- ?app_assoc; simpl;
      eexists; (split; [reflexivity|]); simpl; intuition discriminate. }
  destruct Hlog as (rest & Hlog & Hno). exists rest. split; [|exact Hno].
  apply loader_trace_appended. exact Hlog.
Qed.

(** C3, amended. In production the first thing [rootLoader] itself does
    with a request is to hand it to [enforceHttps]: that call heads the
    calls of [rootLoader], before the locale, the translations and the toast
    are read off the request.  When [enforceHttps] throws, which is how a
    loader redirects, [rootLoader] ends with that very throw and has made no
    other call.  The statement is about [rootLoader] alone; in the route it
    runs as the callback of [rootAuthLoader]. *)
Theorem rootLoader_enforces_https_first (request : Fetch.Request)
    (w : World) :
  process_env w !! "NODE_ENV" = Some "production" ->
  (exists rest,
      trace (rootLoader request) w = EnforceHttps request :: rest)
  /\ (forall x,
         enforceHttps request = Throw x ->
         outcome (rootLoader request) w = Throw x
         /\ trace (rootLoader request) w = [EnforceHttps request]).
Proof.
  intros Henv. apply rootLoader_guarded.
  apply JsFacts.or_else_production. right. right. exact Henv.
Qed.

(** C9. With [NODE_ENV] unset the loader takes the environment to be
    [production]: the test of its first statement holds and the run starts
    with the [enforceHttps] check, whose throw ends it. *)
Theorem rootLoader_unset_env_is_production (request : Fetch.Request)
    (w : World) :
  process_env w !! "NODE_ENV" = None ->
  Js.strict_eq (Js.or_else (process_env w !! "NODE_ENV") "production")
    "production" = true
  /\ (exists rest,
         trace (rootLoader request) w = EnforceHttps request :: rest)
  /\ (forall x,
         enforceHttps request = Throw x ->
         outcome (rootLoader request) w = Throw x
         /\ trace (rootLoader request) w = [EnforceHttps request]).
Proof.
  intros Henv.
  assert (Hprod : Js.or_else (process_env w !! "NODE_ENV") "production"
                  = "production")
    by (apply JsFacts.or_else_production; left; exact Henv).
  split.
  - apply JsFacts.strict_eq_true. exact Hprod.
  - apply rootLoader_guarded. exact Hprod.
Qed.

End Runs.

(** *** Runs on the sample imports *)

Example production_serves_https_request :
  trace (rootLoader (H := sample_imports)
           (Fetch.new_Request "https://example.com/"))
    (world_with {["NODE_ENV" := "production"]})
  = [ EnforceHttps (Fetch.new_Request "https://example.com/");
      GetLocale (Fetch.new_Request "https://example.com/");
      GetFixedT (Fetch.new_Request "https://example.com/");
      GetToast (Fetch.new_Request "https://example.com/") ].
Proof. vm_compute. reflexivity. Qed.

Example development_skips_the_check :
  trace (rootLoader (H := sample_imports) plaintext_request)
    (world_with {["NODE_ENV" := "development"]})
  = [ GetLocale plaintext_request;
      GetFixedT plaintext_request;
      GetToast plaintext_request ].
Proof. vm_compute. reflexivity. Qed.

Lemma rootLoader_enforces_https_first_witness :
  outcome (rootLoader (H := sample_imports) plaintext_request)
    (world_with {["NODE_ENV" := "production"]})
  = Throw (ThrownResponse https_redirect)
  /\ trace (rootLoader (H := sample_imports) plaintext_request)
       (world_with {["NODE_ENV" := "production"]})
     = [EnforceHttps plaintext_request].
Proof.
  assert (Henv : process_env (world_with {["NODE_ENV" := "production"]})
                   !! "NODE_ENV" = Some "production")
    by (vm_compute; reflexivity).
  apply (proj2 (rootLoader_enforces_https_first (H := sample_imports)
                  plaintext_request
                  (world_with {["NODE_ENV" := "production"]})
                  Henv)).
  reflexivity.
Defined.

Lemma rootLoader_unset_env_is_production_witness :
  outcome (rootLoader (H := sample_imports) plaintext_request) (world_with ∅)
  = Throw (ThrownResponse https_redirect)
  /\ trace (rootLoader (H := sample_imports) plaintext_request) (world_with ∅)
     = [EnforceHttps plaintext_request].
Proof.
  assert (Henv : process_env (world_with ∅) !! "NODE_ENV" = None)
    by (vm_compute; reflexivity).
  apply (proj2 (proj2 (rootLoader_unset_env_is_production (H := sample_imports)
                         plaintext_request (world_with ∅) Henv))).
  reflexivity.
Defined.

End RootProps.


(** ** Session resolution *)

Module SessionProps.
Import SessionManager.

Section Resolution.
Context `{Codec}.

(** A request without a [Cookie] header has no cookie of any name. *)
Lemma read_cookie_no_header (request : Fetch.Request) (cookie_name : string) :
  Fetch.get (Fetch.request_headers request) "Cookie" = None ->
  read_cookie request cookie_name = None.
Proof.
  intros Hg. unfold read_cookie. rewrite Hg. reflexivity.
Qed.

(** C8. A request that comes without the session cookie resolves to no
    identity; nothing is to be cleared, and [resolveSession], a total
    function into [Resolution], has no way to raise. *)
Theorem resolveSession_without_cookie (request : Fetch.Request) :
  read_cookie request SESSION_COOKIE_NAME = None ->
  resolveSession request = {| identity := None; clear_cookie := false |}.
Proof.
  intros Hnone. unfold resolveSession.
  destruct (read_cookie request SESSION_COOKIE_NAME) as [raw|] eqn:E.
  - discriminate Hnone.
  - reflexivity.
Qed.

(** A cookie that is there and does not decode is never an identity. *)
Lemma resolveSession_bad_cookie (request : Fetch.Request) (raw : string)
    (f : Failure) :
  read_cookie request SESSION_COOKIE_NAME = Some raw ->
  decode raw = inl f ->
  resolveSession request = {| identity := None; clear_cookie := true |}.
Proof.
  intros Hraw Hdec. unfold resolveSession. rewrite Hraw, Hdec. reflexivity.
Qed.

End Resolution.

Example resolve_among_other_cookies :
  resolveSession (H := sample_codec)
    {| Fetch.url := "https://example.com/";
       Fetch.method := "GET";
       Fetch.request_headers := [("cookie", "theme=dark; sid=u:did:ethr:0xabc")] |}
  = {| identity := Some "did:ethr:0xabc"; clear_cookie := false |}.
Proof. vm_compute. reflexivity. Qed.

Lemma resolveSession_without_cookie_witness :
  resolveSession (H := sample_codec)
    {| Fetch.url := "https://example.com/";
       Fetch.method := "GET";
       Fetch.request_headers := [("Cookie", "theme=dark; xsid=u:mallory")] |}
  = {| identity := None; clear_cookie := false |}.
Proof.
  apply (resolveSession_without_cookie (H := sample_codec)).
  vm_compute. reflexivity.
Defined.

End SessionProps.


(** ** The root loader, call by call *)

Module LoaderProps.
Import Eff Root LoaderPlan.

Section Runs.
Context `{Imports}.

(** The loader, unfolded: the check when in production, then the locale,
    the translations and the toast, each stopping the run when it throws. *)
Lemma rootLoader_run (request : Fetch.Request) (w : World) :
  rootLoader request w =
  let checked :=
    log w ++ (if in_production w then [EnforceHttps request] else []) in
  let at_calls calls := {| process_env := process_env w; log := checked ++ calls |} in
  match (if in_production w then enforceHttps request else Normal tt) with
  | Throw x => (Throw x, at_calls [])
  | Normal _ =>
      match getLocale request with
      | Throw x => (Throw x, at_calls [GetLocale request])
      | Normal l =>
          match getFixedT request with
          | Throw x => (Throw x, at_calls [GetLocale request; GetFixedT request])
          | Normal t =>
              match getToast request with
              | Throw x =>
                  (Throw x,
                   at_calls [GetLocale request; GetFixedT request; GetToast request])
              | Normal toasted =>
                  (Normal
                     (json
                        {| ENV := {| ENVIRONMENT := process_env w !! "NODE_ENV";
                                     SENTRY_DSN := process_env w !! "SENTRY_DSN" |};
                           locale := l;
                           title := t "app-name";
                           toast := fst toasted |}
                        (combineHeaders [snd toasted])),
                   at_calls [GetLocale request; GetFixedT request; GetToast request])
              end
          end
      end
  end.
Proof.
  unfold in_production, rootLoader, call_enforceHttps, call_getLocale,
    call_getFixedT, call_getToast, record, json, bind, ret, throw, lift,
    modify, gets.
  simpl.
  destruct (Js.strict_eq _ _); simpl.
  - destruct (enforceHttps request) as [[]|x]; simpl;
      [|rewrite app_nil_r; reflexivity].
    destruct (getLocale request) as [l|x]; simpl; [|reflexivity].
    destruct (getFixedT request) as [t|x]; simpl;
      [|rewrite <- !app_assoc; reflexivity].
    destruct (getToast request) as [toasted|x]; simpl;
      rewrite <- !app_assoc; reflexivity.
  - rewrite !app_nil_r.
    destruct (getLocale request) as [l|x]; simpl; [|reflexivity].
    destruct (getFixedT request) as [t|x]; simpl;
      [|rewrite <- !app_assoc; reflexivity].
    destruct (getToast request) as [toasted|x]; simpl;
      rewrite <- !app_assoc; reflexivity.
Qed.

Lemma plan_trace {A} (m : M World A) (w : World) (pre calls : list Call) :
  log (snd (m w)) = (log w ++ pre) ++ calls -> trace m w = pre ++ calls.
Proof.
  intros E. unfold trace. rewrite E, <- app_assoc. apply drop_app_length.
Qed.

(** X1. [rootLoader] makes its calls in one fixed order, all on the request
    it was given: [enforceHttps] when in production, then [getLocale],
    [getFixedT] and [getToast].  It stops at the first call that throws and
    ends with that throw; it returns normally exactly when no call of the
    plan throws. *)
Theorem rootLoader_follows_plan (request : Fetch.Request) (w : World) :
  trace (rootLoader request) w = until_throw (plan request w)
  /\ thrown (outcome (rootLoader request) w) = first_throw (plan request w).
Proof.
  assert (Hrun := rootLoader_run request w). cbv zeta in Hrun.
  unfold plan, outcome.
  destruct (in_production w); simpl.
  - destruct (enforceHttps request) as [[]|x]; simpl.
    + destruct (getLocale request) as [l|x]; simpl.
      * destruct (getFixedT request) as [t|x]; simpl.
        -- destruct (getToast request) as [toasted|x]; simpl;
             (split; [apply plan_trace with (pre := [EnforceHttps request])|];
              rewrite Hrun; reflexivity).
        -- split; [apply plan_trace with (pre := [EnforceHttps request])|];
             rewrite Hrun; reflexivity.
      * split; [apply plan_trace with (pre := [EnforceHttps request])|];
          rewrite Hrun; reflexivity.
    + split; [apply plan_trace with (pre := [EnforceHttps request])
                               (calls := [])|];
        rewrite Hrun; reflexivity.
  - destruct (getLocale request) as [l|x]; simpl.
    + destruct (getFixedT request) as [t|x]; simpl.
      * destruct (getToast request) as [toasted|x]; simpl;
          (split; [apply plan_trace with (pre := [])|];
           rewrite Hrun; reflexivity).
      * split; [apply plan_trace with (pre := [])|];
          rewrite Hrun; reflexivity.
    + split; [apply plan_trace with (pre := [])|];
        rewrite Hrun; reflexivity.
Qed.

(** X2. [rootLoader] runs the [enforceHttps] check exactly when [NODE_ENV]
    is unset, empty or [production]; under every other value, whatever its
    spelling, the request is served unchecked. *)
Theorem rootLoader_checks_https_iff (request : Fetch.Request) (w : World) :
  In (EnforceHttps request) (trace (rootLoader request) w) <->
  process_env w !! "NODE_ENV" = None
  \/ process_env w !! "NODE_ENV" = Some ""
  \/ process_env w !! "NODE_ENV" = Some "production".
Proof.
  split.
  - intros Hin.
    destruct (process_env w !! "NODE_ENV") as [e|] eqn:Henv; [|left; reflexivity].
    destruct (String.eqb_spec e "") as [->|Hne]; [right; left; reflexivity|].
    destruct (String.eqb_spec e "production") as [->|Hnp];
      [right; right; reflexivity|].
    destruct (RootProps.rootLoader_unguarded request w e Henv Hne Hnp)
      as (rest & Htrace & Hno).
    rewrite Htrace in Hin. destruct Hin as [Hin | Hin];
      [discriminate Hin | contradiction].
  - intros Henv. apply JsFacts.or_else_production in Henv.
    destruct (proj1 (RootProps.rootLoader_guarded request w Henv)) as [rest ->].
    left. reflexivity.
Qed.

(** The [ENV] of a response is the pair of variables of [process.env]. *)
Lemma rootLoader_env (request : Fetch.Request) (w : World) (r : JsonResponse) :
  outcome (rootLoader request) w = Normal r ->
  ENVIRONMENT (ENV (data r)) = process_env w !! "NODE_ENV"
  /\ SENTRY_DSN (ENV (data r)) = process_env w !! "SENTRY_DSN".
Proof.
  unfold outcome. rewrite rootLoader_run. cbv zeta.
  destruct (if in_production w then enforceHttps request else Normal tt)
    as [u|x]; [|discriminate].
  destruct (getLocale request) as [l|x]; [|discriminate].
  destruct (getFixedT request) as [t|x]; [|discriminate].
  destruct (getToast request) as [toasted|x]; [|discriminate].
  simpl. intros Hr. injection Hr as <-. split; reflexivity.
Qed.

(** The locale of a response is the locale of [getLocale]. *)
Lemma rootLoader_locale (request : Fetch.Request) (w : World) (r : JsonResponse) :
  outcome (rootLoader request) w = Normal r ->
  exists l, getLocale request = Normal l /\ locale (data r) = l.
Proof.
  unfold outcome. rewrite rootLoader_run. cbv zeta.
  destruct (if in_production w then enforceHttps request else Normal tt)
    as [u|x]; [|discriminate].
  destruct (getLocale request) as [l|x]; [|discriminate].
  destruct (getFixedT request) as [t|x]; [|discriminate].
  destruct (getToast request) as [toasted|x]; [|discriminate].
  simpl. intros Hr. injection Hr as <-. exists l. split; reflexivity.
Qed.

(** The toast of a response is the toast of [getToast]. *)
Lemma rootLoader_toast (request : Fetch.Request) (w : World) (r : JsonResponse) :
  outcome (rootLoader request) w = Normal r ->
  exists toasted,
    getToast request = Normal toasted /\ toast (data r) = fst toasted.
Proof.
  unfold outcome. rewrite rootLoader_run. cbv zeta.
  destruct (if in_production w then enforceHttps request else Normal tt)
    as [u|x]; [|discriminate].
  destruct (getLocale request) as [l|x]; [|discriminate].
  destruct (getFixedT request) as [t|x]; [|discriminate].
  destruct (getToast request) as [toasted|x]; [|discriminate].
  simpl. intros Hr. injection Hr as <-. exists toasted. split; reflexivity.
Qed.

(** X3. A response of [rootLoader] comes from calls that all resolved, and
    holds what they resolved to: the locale of [getLocale], the title
    [t('app-name')] for the [t] of [getFixedT], the toast of [getToast], the
    headers [combineHeaders] makes of the toast headers, and in [ENV] the
    values of [NODE_ENV] and [SENTRY_DSN] as [process.env] has them. *)
Theorem rootLoader_response (request : Fetch.Request) (w : World)
    (r : JsonResponse) :
  outcome (rootLoader request) w = Normal r ->
  exists l t toasted,
    getLocale request = Normal l
    /\ getFixedT request = Normal t
    /\ getToast request = Normal toasted
    /\ locale (data r) = l
    /\ title (data r) = t "app-name"
    /\ toast (data r) = fst toasted
    /\ init_headers r = combineHeaders [snd toasted]
    /\ ENVIRONMENT (ENV (data r)) = process_env w !! "NODE_ENV"
    /\ SENTRY_DSN (ENV (data r)) = process_env w !! "SENTRY_DSN".
Proof.
  unfold outcome. rewrite rootLoader_run. cbv zeta.
  destruct (if in_production w then enforceHttps request else Normal tt)
    as [u|x]; [|discriminate].
  destruct (getLocale request) as [l|x]; [|discriminate].
  destruct (getFixedT request) as [t|x]; [|discriminate].
  destruct (getToast request) as [toasted|x]; [|discriminate].
  simpl. intros Hr. injection Hr as <-.
  exists l, t, toasted. repeat split.
Qed.

(** X4. Only the check defaults [NODE_ENV]; the response does not.  When
    [NODE_ENV] is unset and the loader returns, the request went through
    [enforceHttps] as in production, and the [ENVIRONMENT] sent to the
    browser is [undefined], not [production]. *)
Theorem rootLoader_reports_unset_environment (request : Fetch.Request)
    (w : World) (r : JsonResponse) :
  process_env w !! "NODE_ENV" = None ->
  outcome (rootLoader request) w = Normal r ->
  ENVIRONMENT (ENV (data r)) = None
  /\ enforceHttps request = Normal tt
  /\ trace (rootLoader request) w =
       [ EnforceHttps request; GetLocale request;
         GetFixedT request; GetToast request ].
Proof.
  intros Henv. unfold outcome.
  assert (Hrun := rootLoader_run request w). cbv zeta in Hrun.
  assert (Hprod : in_production w = true).
  { unfold in_production. rewrite Henv. reflexivity. }
  rewrite Hprod in Hrun.
  destruct (enforceHttps request) as [[]|x];
    [|rewrite Hrun; discriminate].
  destruct (getLocale request) as [l|x]; [|rewrite Hrun; discriminate].
  destruct (getFixedT request) as [t|x]; [|rewrite Hrun; discriminate].
  destruct (getToast request) as [toasted|x]; [|rewrite Hrun; discriminate].
  intros Hr. split; [|split].
  - rewrite Hrun in Hr. simpl in Hr. injection Hr as <-. simpl. exact Henv.
  - reflexivity.
  - apply plan_trace with (pre := [EnforceHttps request]).
    rewrite Hrun. reflexivity.
Qed.

End Runs.

(** *** Runs on the sample imports *)

Example loader_stops_at_translations :
  rootLoader (H := failing_imports) plaintext_request
    (world_with {["NODE_ENV" := "test"]})
  = (Throw (Error "no translations"),
     {| process_env := {["NODE_ENV" := "test"]};
        log := [GetLocale plaintext_request; GetFixedT plaintext_request] |}).
Proof. vm_compute. reflexivity. Qed.

Lemma rootLoader_response_witness :
  exists l t toasted,
    getLocale (Imports := french_imports)
      (Fetch.new_Request "https://example.com/") = Normal l
    /\ getFixedT (Imports := french_imports)
         (Fetch.new_Request "https://example.com/") = Normal t
    /\ getToast (Imports := french_imports)
         (Fetch.new_Request "https://example.com/") = Normal toasted
    /\ "fr" = l
    /\ "fr:app-name" = t "app-name"
    /\ (Some "saved" : option string) = fst toasted
    /\ [("Set-Cookie", "toast=; Max-Age=0")]
       = combineHeaders (Imports := french_imports) [snd toasted]
    /\ Some "production"
       = process_env (world_with {["NODE_ENV" := "production"]}) !! "NODE_ENV"
    /\ None
       = process_env (world_with {["NODE_ENV" := "production"]}) !! "SENTRY_DSN".
Proof.
  apply (rootLoader_response (H := french_imports)
           (Fetch.new_Request "https://example.com/")
           (world_with {["NODE_ENV" := "production"]})
           (french_response (Some "production"))).
  vm_compute. reflexivity.
Defined.

Lemma rootLoader_reports_unset_environment_witness :
  ENVIRONMENT (ENV (data (french_response None))) = None
  /\ enforceHttps (Imports := french_imports)
       (Fetch.new_Request "https://example.com/") = Normal tt
  /\ trace (rootLoader (H := french_imports)
              (Fetch.new_Request "https://example.com/")) (world_with ∅)
     = [ EnforceHttps (Fetch.new_Request "https://example.com/");
         GetLocale (Fetch.new_Request "https://example.com/");
         GetFixedT (Fetch.new_Request "https://example.com/");
         GetToast (Fetch.new_Request "https://example.com/") ].
Proof.
  apply (rootLoader_reports_unset_environment (H := french_imports)
           (Fetch.new_Request "https://example.com/") (world_with ∅)
           (french_response None)).
  - vm_compute. reflexivity.
  - vm_compute. reflexivity.
Defined.

End LoaderProps.


(** ** The page: [shouldRevalidate], [meta], [Layout], [ErrorBoundary] *)

Module PageProps.
Import Eff Root RootPage.

(** X5. [shouldRevalidate] answers [true] exactly when the default says so
    or the action status lies between 400 and 499: a 4xx action always
    revalidates the root loader, and no other status, nor a missing one,
    changes the default. *)
Theorem shouldRevalidate_iff (args : ShouldRevalidateFunctionArgs) :
  shouldRevalidate args = true <->
  defaultShouldRevalidate args = true
  \/ exists status,
       actionStatus args = Some status /\ (400 <= status <= 499)%Z.
Proof.
  unfold shouldRevalidate.
  destruct (actionStatus args) as [status|].
  - destruct (Z.eqb_spec status 0) as [E0|E0];
      destruct (Z.ltb_spec 399 status) as [E1|E1];
      destruct (Z.ltb_spec status 500) as [E2|E2]; simpl; split;
      try (intros _; right; exists status; split; [reflexivity | lia]);
      try (intros _; reflexivity);
      try (intros Hd; left; exact Hd);
      (intros [Hd | (s & Hs & Hr)]; [exact Hd | injection Hs as <-; lia]).
  - split.
    + intros Hd. left. exact Hd.
    + intros [Hd | (s & Hs & _)]; [exact Hd | discriminate Hs].
Qed.

Section Page.
Context `{Imports}.

(** X6. The page title is the application name in the language of the
    request: on the data of a response of [rootLoader], [meta] yields the
    single descriptor whose title is [t('app-name')], [t] being what
    [getFixedT] resolved to for that request. *)
Theorem meta_titles_the_page (request : Fetch.Request) (w : World)
    (r : JsonResponse) :
  outcome (rootLoader request) w = Normal r ->
  exists t,
    getFixedT request = Normal t
    /\ meta (Some (data r)) = [ {| meta_title := t "app-name" |} ].
Proof.
  unfold outcome. rewrite LoaderProps.rootLoader_run. cbv zeta.
  destruct (if LoaderPlan.in_production w then enforceHttps request
            else Normal tt) as [u|x]; [|discriminate].
  destruct (getLocale request) as [l|x]; [|discriminate].
  destruct (getFixedT request) as [t|x]; [|discriminate].
  destruct (getToast request) as [toasted|x]; [|discriminate].
  simpl. intros Hr. injection Hr as <-.
  exists t. split; reflexivity.
Qed.

End Page.

Section Render.
Context `{Imports}.
Context `{Hooks}.

Ltac render :=
  unfold rendered, hooks_called, Layout, ErrorBoundary, useChangeLanguage,
    call_useRouteLoaderData, call_useTranslation, call_useRouteError, hook,
    bind, ret, modify;
  simpl.

(** X7. The [lang] attribute of the document and the language [Layout]
    switches i18next to are one and the same locale, and it is never empty:
    it is the locale of the loader data, or [en] when there is no loader
    data or its locale is empty.  The effect that changes the language is
    the only effect [Layout] registers. *)
Theorem Layout_language (children : Node) :
  exists l node,
    rendered (Layout children) = Normal node
    /\ prop "lang" node = Some (Str l)
    /\ effects_of (hooks_called (Layout children)) = [ChangeLanguage l]
    /\ l <> ""
    /\ (forall d,
          routeLoaderData "root" = Some d -> locale d <> "" -> l = locale d)
    /\ (routeLoaderData "root" = None -> l = "en")
    /\ (forall d,
          routeLoaderData "root" = Some d -> locale d = "" -> l = "en").
Proof.
  exists (Js.or_else (locale <$> routeLoaderData "root") "en").
  eexists. split; [render; reflexivity|].
  split; [render; reflexivity|].
  split; [render; reflexivity|].
  destruct (routeLoaderData "root") as [d|]; simpl.
  - destruct (Js.truthy_string (locale d)) eqn:Et.
    + apply JsFacts.truthy_string_true in Et.
      split; [exact Et|]. split; [|split].
      * intros d' Hd _. injection Hd as <-. reflexivity.
      * discriminate.
      * intros d' Hd He. injection Hd as <-. contradiction.
    + apply JsFacts.truthy_string_false in Et.
      split; [discriminate|]. split; [|split].
      * intros d' Hd Hne. injection Hd as <-. contradiction.
      * discriminate.
      * reflexivity.
  - split; [discriminate|]. split; [|split].
    + discriminate.
    + reflexivity.
    + discriminate.
Qed.

(** X8. [Layout] puts a [title] into the head exactly when the route has an
    error.  The title always ends in [ | French House Stack]; before that
    it reads the status and the status text of a route error response, and
    [Oh no!] for every other error. *)
Theorem Layout_title (children : Node) :
  exists node head,
    rendered (Layout children) = Normal node
    /\ child "head" node = Some head
    /\ match routeError with
       | None => child "title" head = None
       | Some e =>
           exists before,
             child "title" head =
               Some (Host "title" [] [Text (before +:+ " | French House Stack")])
             /\ before =
                  match e with
                  | ErrorResponse status statusText =>
                      pretty status +:+ " " +:+ statusText
                  | OtherError => "Oh no!"
                  end
       end.
Proof.
  eexists. eexists. split; [render; reflexivity|].
  split; [reflexivity|].
  destruct routeError as [[status statusText|]|]; simpl.
  - eexists. split; reflexivity.
  - eexists. split; reflexivity.
  - reflexivity.
Qed.

(** X9. What [Layout] writes into [window.ENV] is what the loader read from
    [process.env]: with the data of a response of [rootLoader] as the root
    loader data, the last element of the body is the script that assigns
    [JSON.stringify] of the object holding [NODE_ENV] and [SENTRY_DSN], and
    nothing else of the environment. *)
Theorem Layout_exposes_loader_env (request : Fetch.Request) (w : World)
    (r : JsonResponse) (children : Node) :
  outcome (rootLoader request) w = Normal r ->
  routeLoaderData "root" = Some (data r) ->
  exists node body,
    rendered (Layout children) = Normal node
    /\ child "body" node = Some body
    /\ last (children_of body) =
       Some (Host "script"
               [("dangerouslySetInnerHTML",
                 InnerHTML
                   ("window.ENV = "
                    +:+ JSON_stringify
                          {| ENVIRONMENT := process_env w !! "NODE_ENV";
                             SENTRY_DSN := process_env w !! "SENTRY_DSN" |}))]
               []).
Proof.
  intros Hr Hdata.
  destruct (LoaderProps.rootLoader_env request w r Hr) as [He Hs].
  eexists. eexists. split; [render; reflexivity|].
  split; [reflexivity|].
  rewrite Hdata. simpl.
  destruct (ENV (data r)) as [e s]. simpl in He, Hs. subst e s. reflexivity.
Qed.

(** X10. The toast [Layout] hands to [useToast] is the toast the loader
    got from [getToast] for the request. *)
Theorem Layout_shows_loader_toast (request : Fetch.Request) (w : World)
    (r : JsonResponse) (children : Node) :
  outcome (rootLoader request) w = Normal r ->
  routeLoaderData "root" = Some (data r) ->
  exists toasted,
    getToast request = Normal toasted
    /\ In (UseToast (fst toasted)) (hooks_called (Layout children)).
Proof.
  intros Hr Hdata.
  destruct (LoaderProps.rootLoader_toast request w r Hr) as (toasted & Ht & Hd).
  exists toasted. split; [exact Ht|].
  render. rewrite Hdata. simpl. rewrite Hd.
  do 4 right. left. reflexivity.
Qed.

(** X18. The language of the document is the locale the loader detected:
    with the data of a response of [rootLoader] as the root loader data,
    the [lang] attribute is what [getLocale] resolved to for the request,
    and [en] when that was the empty string. *)
Theorem Layout_language_of_loader (request : Fetch.Request) (w : World)
    (r : JsonResponse) (children : Node) :
  outcome (rootLoader request) w = Normal r ->
  routeLoaderData "root" = Some (data r) ->
  exists l node,
    getLocale request = Normal l
    /\ rendered (Layout children) = Normal node
    /\ prop "lang" node = Some (Str (if String.eqb l "" then "en" else l)).
Proof.
  intros Hr Hdata.
  destruct (LoaderProps.rootLoader_locale request w r Hr) as (l & Hl & Hd).
  exists l. eexists. split; [exact Hl|].
  split; [render; reflexivity|].
  rewrite Hdata. simpl. rewrite Hd. unfold Js.or_else, Js.truthy_string.
  destruct (String.eqb l ""); reflexivity.
Qed.

(** X11. [ErrorBoundary] renders the not-found page exactly for a route
    error response of status 404, and the general error boundary for every
    other error and for none. *)
Theorem ErrorBoundary_not_found_iff :
  (rendered ErrorBoundary = Normal (Component "NotFoundComponent" []) <->
   exists statusText, routeError = Some (ErrorResponse 404 statusText))
  /\ (rendered ErrorBoundary = Normal (Component "GeneralErrorBoundary" []) <->
      forall statusText, routeError <> Some (ErrorResponse 404 statusText)).
Proof.
  render.
  destruct routeError as [[status statusText|]|]; simpl;
    [destruct (Z.eqb_spec status 404) as [->|Hne] | |];
    (split; split); intros Hyp;
    first
      [ reflexivity
      | congruence
      | eexists; reflexivity
      | destruct Hyp as (t & Ht); congruence
      | exfalso; eapply Hyp; reflexivity ].
Qed.

End Render.

(** *** Renders on the sample hooks *)

Import LoaderPlan PageSamples.

Example layout_of_french_page :
  rendered (H := french_imports)
    (Layout (H0 := sample_hooks (Some (data (french_response (Some "production"))))
                     (Some (ErrorResponse 503 "Service Unavailable")))
       (Component "Outlet" []))
  = Normal
      (Host "html"
         [("lang", Str "fr"); ("className", Str "h-full"); ("dir", Str "ltr")]
         [ Host "head" []
             [ Host "meta" [("charSet", Str "utf-8")] [];
               Host "meta"
                 [("name", Str "viewport");
                  ("content", Str "width=device-width, initial-scale=1")] [];
               Host "title" []
                 [Text "503 Service Unavailable | French House Stack"];
               Component "Meta" [];
               Component "Links" [] ];
           Host "body" [("className", Str "h-full overscroll-none")]
             [ Component "Outlet" [];
               Component "Toaster" [("position", Str "bottom-right")];
               Component "Scripts" [];
               Component "ScrollRestoration" [];
               Host "script"
                 [("dangerouslySetInnerHTML",
                   InnerHTML
                     ("window.ENV = {" +:+ quoted "ENVIRONMENT" +:+ ":"
                      +:+ quoted "production" +:+ "}"))]
                 [] ] ]).
Proof. vm_compute. reflexivity. Qed.

Example layout_without_data :
  hooks_called (H := french_imports)
    (Layout (H0 := sample_hooks None None) Nothing)
  = [ UseRouteLoaderData "root"; UseTranslation; UseTranslation;
      UseEffect (ChangeLanguage "en") [DepString "en"; DepI18n];
      UseToast None; UseRouteError ].
Proof. vm_compute. reflexivity. Qed.

Lemma meta_titles_the_page_witness :
  exists t,
    getFixedT (Imports := french_imports)
      (Fetch.new_Request "https://example.com/") = Normal t
    /\ meta (Some (data (french_response (Some "production"))))
       = [ {| meta_title := t "app-name" |} ].
Proof.
  apply (@meta_titles_the_page french_imports
           (Fetch.new_Request "https://example.com/")
           (world_with {["NODE_ENV" := "production"]})
           (french_response (Some "production"))).
  vm_compute. reflexivity.
Defined.

Lemma Layout_exposes_loader_env_witness :
  exists node body,
    rendered
      (Layout (H0 := sample_hooks (Some (data (french_response (Some "production"))))
                       None)
         (Component "Outlet" [])) = Normal node
    /\ child "body" node = Some body
    /\ last (children_of body) =
       Some (Host "script"
               [("dangerouslySetInnerHTML",
                 InnerHTML
                   ("window.ENV = "
                    +:+ sample_stringify
                          {| ENVIRONMENT :=
                               process_env (world_with {["NODE_ENV" := "production"]})
                               !! "NODE_ENV";
                             SENTRY_DSN :=
                               process_env (world_with {["NODE_ENV" := "production"]})
                               !! "SENTRY_DSN" |}))]
               []).
Proof.
  apply (@Layout_exposes_loader_env french_imports
           (sample_hooks (Some (data (french_response (Some "production")))) None)
           (Fetch.new_Request "https://example.com/")
           (world_with {["NODE_ENV" := "production"]})
           (french_response (Some "production"))
           (Component "Outlet" [])).
  - vm_compute. reflexivity.
  - reflexivity.
Defined.

Lemma Layout_language_of_loader_witness :
  exists l node,
    getLocale (Imports := french_imports)
      (Fetch.new_Request "https://example.com/") = Normal l
    /\ rendered
         (Layout (H0 := sample_hooks
                          (Some (data (french_response (Some "production"))))
                          None)
            (Component "Outlet" [])) = Normal node
    /\ prop "lang" node = Some (Str (if String.eqb l "" then "en" else l)).
Proof.
  apply (@Layout_language_of_loader french_imports
           (sample_hooks (Some (data (french_response (Some "production")))) None)
           (Fetch.new_Request "https://example.com/")
           (world_with {["NODE_ENV" := "production"]})
           (french_response (Some "production"))
           (Component "Outlet" [])).
  - vm_compute. reflexivity.
  - reflexivity.
Defined.

Lemma Layout_shows_loader_toast_witness :
  exists toasted,
    getToast (Imports := french_imports)
      (Fetch.new_Request "https://example.com/") = Normal toasted
    /\ In (UseToast (fst toasted))
         (hooks_called
            (Layout (H0 := sample_hooks
                             (Some (data (french_response (Some "production"))))
                             None)
               (Component "Outlet" []))).
Proof.
  apply (@Layout_shows_loader_toast french_imports
           (sample_hooks (Some (data (french_response (Some "production")))) None)
           (Fetch.new_Request "https://example.com/")
           (world_with {["NODE_ENV" := "production"]})
           (french_response (Some "production"))
           (Component "Outlet" [])).
  - vm_compute. reflexivity.
  - reflexivity.
Defined.

End PageProps.


(** ** The test injector, outcome by outcome *)

Module InjectorOutcomes.
Import Eff TestInjector InjectorSamples.

Section Runs.
Context `{Imports}.

(** The world after a run without an id has one more draw. *)
Lemma draws_after_login (page : Page) (w : World) :
  draws (snd (loginByCookie None page w)) = S (draws w).
Proof.
  rewrite InjectorProps.run_to_creation.
  destruct (createUserSession (session_args None w)) as [r|x]; [|reflexivity].
  destruct (Fetch.get (Fetch.headers r) "Set-Cookie") as [v|]; [|reflexivity].
  destruct (Js.truthy_string v); reflexivity.
Qed.

(** X12. [loginByCookie] returns normally exactly when [createUserSession]
    resolved to a response whose [Set-Cookie] header has a non-empty value
    and [addCookies] accepted the session cookie made of it. *)
Theorem loginByCookie_returns_iff (id : option string) (page : Page)
    (w : World) :
  outcome (loginByCookie id page) w = Normal tt <->
  exists response v,
    createUserSession (session_args id w) = Normal response
    /\ Fetch.get (Fetch.headers response) "Set-Cookie" = Some v
    /\ v <> ""
    /\ addCookies page
         [ {| name := USER_AUTHENTICATION_SESSION_NAME;
              value := parse v !! USER_AUTHENTICATION_SESSION_NAME;
              domain := "localhost";
              path := "/" |} ] = Normal tt.
Proof.
  unfold outcome. rewrite InjectorProps.run_to_creation. split.
  - destruct (createUserSession (session_args id w)) as [r|x]; [|discriminate].
    destruct (Fetch.get (Fetch.headers r) "Set-Cookie") as [v|] eqn:Eg;
      [|discriminate].
    destruct (Js.truthy_string v) eqn:Et; [|discriminate].
    simpl. intros Hok. exists r, v.
    apply JsFacts.truthy_string_true in Et. auto.
  - intros (r & v & -> & -> & Hv & Hok).
    apply JsFacts.truthy_string_true in Hv. rewrite Hv. exact Hok.
Qed.

(** X13. Once [createUserSession] has resolved, the missing-cookie check
    fires, ending the run before [addCookies] with the error [Cookie
    missing from createUserSession response], exactly when
    [headers.get('Set-Cookie')] is [null] or the empty string. *)
Theorem loginByCookie_check_fires_iff (id : option string) (page : Page)
    (w : World) (response : Fetch.Response) :
  createUserSession (session_args id w) = Normal response ->
  (outcome (loginByCookie id page) w =
     Throw (Error "Cookie missing from createUserSession response")
   /\ trace (loginByCookie id page) w =
        id_calls id ++ [CreateUserSession (session_args id w)])
  <->
  (Fetch.get (Fetch.headers response) "Set-Cookie" = None
   \/ Fetch.get (Fetch.headers response) "Set-Cookie" = Some "").
Proof.
  intros Ec.
  assert (Hrun := InjectorProps.run_to_creation id page w).
  rewrite Ec in Hrun. split.
  - intros [_ Htrace].
    destruct (Fetch.get (Fetch.headers response) "Set-Cookie") as [v|];
      [|left; reflexivity].
    destruct (Js.truthy_string v) eqn:Et.
    + exfalso.
      assert (Hfull : trace (loginByCookie id page) w =
                      (id_calls id ++ [CreateUserSession (session_args id w)])
                      ++ [AddCookies page [session_cookie v]]).
      { apply InjectorProps.injector_trace_appended. rewrite Hrun. simpl.
        rewrite <- !app_assoc. reflexivity. }
      rewrite Htrace in Hfull.
      apply (f_equal (@length Call)) in Hfull.
      rewrite !length_app in Hfull. simpl in Hfull. lia.
    + apply JsFacts.truthy_string_false in Et. subst v. right. reflexivity.
  - intros Hg.
    assert (Hstop : loginByCookie id page w =
                    (Throw missing_cookie_error, world_at_creation id w)).
    { destruct Hg as [Hg | Hg]; rewrite Hg in Hrun; exact Hrun. }
    split.
    + unfold outcome. rewrite Hstop. reflexivity.
    + apply InjectorProps.injector_trace_appended. rewrite Hstop. reflexivity.
Qed.

(** X14. A rejection of [createUserSession] is the outcome of
    [loginByCookie]: the run ends with the very value thrown, and nothing
    is handed to the browser. *)
Theorem loginByCookie_propagates_creation_failure (id : option string)
    (page : Page) (w : World) (x : Thrown) :
  createUserSession (session_args id w) = Throw x ->
  outcome (loginByCookie id page) w = Throw x
  /\ trace (loginByCookie id page) w =
       id_calls id ++ [CreateUserSession (session_args id w)].
Proof.
  intros Ec.
  assert (Hrun := InjectorProps.run_to_creation id page w).
  rewrite Ec in Hrun. split.
  - unfold outcome. rewrite Hrun. reflexivity.
  - apply InjectorProps.injector_trace_appended. rewrite Hrun. reflexivity.
Qed.

(** X15. Past the check, [loginByCookie] ends the way [addCookies] ends:
    when the [Set-Cookie] header of the response has a non-empty value, the
    outcome of the run is the completion of the one [addCookies] call,
    a rejection included, neither caught nor replaced. *)
Theorem loginByCookie_ends_as_addCookies (id : option string) (page : Page)
    (w : World) (response : Fetch.Response) (v : string) :
  createUserSession (session_args id w) = Normal response ->
  Fetch.get (Fetch.headers response) "Set-Cookie" = Some v ->
  v <> "" ->
  outcome (loginByCookie id page) w =
    addCookies page
      [ {| name := USER_AUTHENTICATION_SESSION_NAME;
           value := parse v !! USER_AUTHENTICATION_SESSION_NAME;
           domain := "localhost";
           path := "/" |} ]
  /\ last (trace (loginByCookie id page) w) =
       Some (AddCookies page
               [ {| name := USER_AUTHENTICATION_SESSION_NAME;
                    value := parse v !! USER_AUTHENTICATION_SESSION_NAME;
                    domain := "localhost";
                    path := "/" |} ]).
Proof.
  intros Ec Eg Hv. apply JsFacts.truthy_string_true in Hv.
  assert (Hrun := InjectorProps.run_to_creation id page w).
  rewrite Ec, Eg, Hv in Hrun. split.
  - unfold outcome. rewrite Hrun. reflexivity.
  - rewrite (InjectorProps.injector_trace_appended (loginByCookie id page) w
               ((id_calls id ++ [CreateUserSession (session_args id w)])
                ++ [AddCookies page [session_cookie v]])).
    + apply last_snoc.
    + rewrite Hrun. simpl. rewrite <- !app_assoc. reflexivity.
Qed.

(** X16. Two runs without an id, one after the other, create sessions for
    two different users whenever faker's two addresses differ: the second
    run draws anew instead of reusing the id of the first. *)
Theorem loginByCookie_twice_distinct_users (page1 page2 : Page) (w : World) :
  ethereumAddress (draws w) <> ethereumAddress (S (draws w)) ->
  exists args1 args2 rest1 rest2,
    trace (loginByCookie None page1) w =
      FakerEthereumAddress :: CreateUserSession args1 :: rest1
    /\ trace (loginByCookie None page2) (snd (loginByCookie None page1 w)) =
         FakerEthereumAddress :: CreateUserSession args2 :: rest2
    /\ userId args1 <> userId args2.
Proof.
  intros Hdiff.
  destruct (InjectorProps.loginByCookie_creates_session_calls None page1 w)
    as [H1 | (r1 & v1 & _ & _ & H1)];
  destruct (InjectorProps.loginByCookie_creates_session_calls None page2
              (snd (loginByCookie None page1 w)))
    as [H2 | (r2 & v2 & _ & _ & H2)];
  do 4 eexists; (split; [rewrite H1; reflexivity|]);
  (split; [rewrite H2; reflexivity|]);
  simpl; rewrite draws_after_login;
  intros E; apply (inj (String.app "did:ethr:")) in E; exact (Hdiff E).
Qed.

(** X17. [generateRandomDid] always returns: [did:ethr:] followed by the
    address faker drew.  Two calls in a row return the same id exactly when
    faker drew the same address twice. *)
Theorem generateRandomDid_twice (w : World) :
  exists did1 did2 w1 w2,
    generateRandomDid w = (Normal did1, w1)
    /\ generateRandomDid w1 = (Normal did2, w2)
    /\ did1 = "did:ethr:" +:+ ethereumAddress (draws w)
    /\ (did1 = did2 <->
        ethereumAddress (draws w) = ethereumAddress (S (draws w))).
Proof.
  do 4 eexists. split; [reflexivity|]. split; [reflexivity|].
  split; [reflexivity|]. simpl. split.
  - intros E. apply (inj (String.app "did:ethr:")) in E. exact E.
  - intros ->. reflexivity.
Qed.

End Runs.

(** *** Runs on the sample imports *)

Example login_rejected_by_strict_browser :
  loginByCookie (H := strict_imports [("Set-Cookie", "other=1; Path=/")])
    (Some "did:ethr:0xabc") (mkPage 1) fresh_world
  = (Throw (Error "cookies[0].value: expected string, got undefined"),
     {| draws := 0;
        log := [ CreateUserSession
                   {| redirectTo := "/";
                      remember := false;
                      request := Fetch.new_Request "http://localhost:3000/";
                      userId := "did:ethr:0xabc" |};
                 AddCookies (mkPage 1)
                   [ {| name := "sid"; value := None;
                        domain := "localhost"; path := "/" |} ] ] |}).
Proof. vm_compute. reflexivity. Qed.

Lemma loginByCookie_check_fires_iff_witness :
  outcome (loginByCookie (H := sample_imports [("Set-Cookie", "")])
             (Some "did:ethr:0xabc") (mkPage 1)) fresh_world
  = Throw (Error "Cookie missing from createUserSession response")
  /\ trace (loginByCookie (H := sample_imports [("Set-Cookie", "")])
              (Some "did:ethr:0xabc") (mkPage 1)) fresh_world
     = id_calls (Some "did:ethr:0xabc")
       ++ [ CreateUserSession
              (session_args (H := sample_imports [("Set-Cookie", "")])
                 (Some "did:ethr:0xabc") fresh_world) ].
Proof.
  apply (proj2 (loginByCookie_check_fires_iff
                  (H := sample_imports [("Set-Cookie", "")])
                  (Some "did:ethr:0xabc") (mkPage 1) fresh_world
                  {| Fetch.status := 302;
                     Fetch.headers := [("Location", "/"); ("Set-Cookie", "")] |}
                  eq_refl)).
  right. reflexivity.
Defined.

Lemma loginByCookie_propagates_creation_failure_witness :
  outcome (loginByCookie (H := rejecting_imports) None (mkPage 1)) fresh_world
  = Throw (Error "database unreachable")
  /\ trace (loginByCookie (H := rejecting_imports) None (mkPage 1)) fresh_world
     = id_calls None
       ++ [ CreateUserSession
              (session_args (H := rejecting_imports) None fresh_world) ].
Proof.
  apply (loginByCookie_propagates_creation_failure (H := rejecting_imports)
           None (mkPage 1) fresh_world (Error "database unreachable")).
  reflexivity.
Defined.

Lemma loginByCookie_ends_as_addCookies_witness :
  outcome (loginByCookie (H := strict_imports [("Set-Cookie", "other=1; Path=/")])
             (Some "did:ethr:0xabc") (mkPage 1)) fresh_world
  = strict_addCookies (mkPage 1)
      [ {| name := "sid";
           value := CookieString.parse "other=1; Path=/" !! "sid";
           domain := "localhost";
           path := "/" |} ]
  /\ last (trace (loginByCookie
                    (H := strict_imports [("Set-Cookie", "other=1; Path=/")])
                    (Some "did:ethr:0xabc") (mkPage 1)) fresh_world)
     = Some (AddCookies (mkPage 1)
               [ {| name := "sid";
                    value := CookieString.parse "other=1; Path=/" !! "sid";
                    domain := "localhost";
                    path := "/" |} ]).
Proof.
  apply (loginByCookie_ends_as_addCookies
           (H := strict_imports [("Set-Cookie", "other=1; Path=/")])
           (Some "did:ethr:0xabc") (mkPage 1) fresh_world
           {| Fetch.status := 302;
              Fetch.headers := [("Location", "/"); ("Set-Cookie", "other=1; Path=/")] |}
           "other=1; Path=/").
  - reflexivity.
  - reflexivity.
  - discriminate.
Defined.

Lemma loginByCookie_twice_distinct_users_witness :
  exists args1 args2 rest1 rest2,
    trace (loginByCookie (H := sample_imports [("Set-Cookie", "sid=tok")])
             None (mkPage 1)) fresh_world
    = FakerEthereumAddress :: CreateUserSession args1 :: rest1
    /\ trace (loginByCookie (H := sample_imports [("Set-Cookie", "sid=tok")])
                None (mkPage 2))
         (snd (loginByCookie (H := sample_imports [("Set-Cookie", "sid=tok")])
                 None (mkPage 1) fresh_world))
       = FakerEthereumAddress :: CreateUserSession args2 :: rest2
    /\ userId args1 <> userId args2.
Proof.
  apply (loginByCookie_twice_distinct_users
           (H := sample_imports [("Set-Cookie", "sid=tok")])
           (mkPage 1) (mkPage 2) fresh_world).
  vm_compute. discriminate.
Defined.

End InjectorOutcomes.


(** ** The exported loader *)

Module RouteProps.
Import Eff Root RootRoute.

Section Route.
Context `{Imports}.

(** Whatever [rootAuthLoader] does, the route's first call is the call of
    [rootAuthLoader] on the loader's arguments; the calls of [rootLoader],
    the [enforceHttps] check among them, come after it, and only if
    [rootAuthLoader] invokes the callback. *)
Lemma loader_calls_wrapper_first
    (rootAuthLoader : LoaderFunctionArgs -> Wrapping)
    (arguments_ : LoaderFunctionArgs) (rw : RouteWorld) :
  route_trace (loader rootAuthLoader arguments_) rw =
  RootAuthLoader arguments_ ::
  match rootAuthLoader arguments_ with
  | Respond _ => []
  | Invoke callback_arguments _ =>
      map Callback
        (trace (rootLoader (request callback_arguments))
           {| process_env := route_env rw; log := [] |})
  end.
Proof.
  unfold route_trace, loader, as_callback, trace, bind, modify, lift. simpl.
  destruct (rootAuthLoader arguments_) as [c|a finish]; simpl.
  - apply drop_app_length.
  - rewrite <- app_assoc, drop_app_length. simpl. rewrite drop_0.
    reflexivity.
Qed.

End Route.

(** C3, as stated, fails for the route: a plaintext request in production
    reaches [rootAuthLoader] before the [enforceHttps] check, under a
    wrapper that does no more than invoke [rootLoader].  The check is the
    second call of the run, not the first. *)
Lemma loader_wrapper_precedes_https_check :
  process_env (world_with {["NODE_ENV" := "production"]}) !! "NODE_ENV"
    = Some "production"
  /\ route_trace
       (loader (H := sample_imports) passing_wrapper
          {| request := plaintext_request; params := [] |})
       (route_world_with {["NODE_ENV" := "production"]})
     = [ RootAuthLoader {| request := plaintext_request; params := [] |};
         Callback (EnforceHttps plaintext_request) ]
  /\ head
       (route_trace
          (loader (H := sample_imports) passing_wrapper
             {| request := plaintext_request; params := [] |})
          (route_world_with {["NODE_ENV" := "production"]}))
     <> Some (Callback (EnforceHttps plaintext_request)).
Proof.
  split; [vm_compute; reflexivity|].
  split; [vm_compute; reflexivity|].
  vm_compute. discriminate.
Qed.

End RouteProps.


(** ** Plain names and values in cookie strings *)

Module CookieStringProps.
Import CookieString SessionModule.

Lemma append_cons (c : ascii) (s t : string) :
  String c s +:+ t = String c (s +:+ t).
Proof. reflexivity. Qed.

Lemma append_empty (s : string) : s +:+ "" = s.
Proof.
  induction s as [|c s IH]; [reflexivity|].
  rewrite append_cons, IH. reflexivity.
Qed.

Lemma append_associative (a b c : string) :
  (a +:+ b) +:+ c = a +:+ (b +:+ c).
Proof.
  induction a as [|x a IH]; [reflexivity|].
  rewrite !append_cons, IH. reflexivity.
Qed.

Lemma free_of_append (bad : ascii -> bool) (a b : string) :
  free_of bad (a +:+ b) = free_of bad a && free_of bad b.
Proof.
  induction a as [|c a IH]; [reflexivity|].
  rewrite append_cons. simpl. rewrite IH. apply andb_assoc.
Qed.

(** A weaker set of characters is avoided as well. *)
Lemma free_of_weaken (bad bad' : ascii -> bool) (s : string) :
  (forall c, bad' c = true -> bad c = true) ->
  free_of bad s = true -> free_of bad' s = true.
Proof.
  intros Hsub. induction s as [|c s IH]; [reflexivity|]. simpl.
  intros Hs. apply andb_true_iff in Hs. destruct Hs as [Hc Hs].
  apply andb_true_iff. split; [|apply IH; exact Hs].
  destruct (bad' c) eqn:E; [|reflexivity].
  rewrite (Hsub c E) in Hc. discriminate Hc.
Qed.

Lemma split_on_first (sep : ascii) (a r : string) :
  free_of (Ascii.eqb sep) a = true ->
  split_on sep (a +:+ String sep r) = a :: split_on sep r.
Proof.
  induction a as [|c a IH]; intros Ha.
  - simpl. rewrite Ascii.eqb_refl. reflexivity.
  - simpl in Ha. apply andb_true_iff in Ha. destruct Ha as [Hc Ha].
    rewrite append_cons. simpl.
    rewrite Ascii.eqb_sym. apply negb_true_iff in Hc. rewrite Hc.
    rewrite (IH Ha). reflexivity.
Qed.

Lemma split_on_single (sep : ascii) (a : string) :
  free_of (Ascii.eqb sep) a = true -> split_on sep a = [a].
Proof.
  induction a as [|c a IH]; intros Ha; [reflexivity|].
  simpl in Ha. apply andb_true_iff in Ha. destruct Ha as [Hc Ha].
  simpl. rewrite Ascii.eqb_sym. apply negb_true_iff in Hc. rewrite Hc.
  rewrite (IH Ha). reflexivity.
Qed.

Lemma cut_at_first (sep : ascii) (a b : string) :
  free_of (Ascii.eqb sep) a = true ->
  cut_at sep (a +:+ String sep b) = Some (a, b).
Proof.
  induction a as [|c a IH]; intros Ha.
  - simpl. rewrite Ascii.eqb_refl. reflexivity.
  - simpl in Ha. apply andb_true_iff in Ha. destruct Ha as [Hc Ha].
    rewrite append_cons. simpl.
    rewrite Ascii.eqb_sym. apply negb_true_iff in Hc. rewrite Hc.
    rewrite (IH Ha). reflexivity.
Qed.

Lemma rev_app_rev_app (s a b : string) :
  String.rev_app (String.rev_app s a) b = String.rev_app a (s +:+ b).
Proof.
  revert a b. induction s as [|c s IH]; intros a b; [reflexivity|].
  simpl. rewrite IH. reflexivity.
Qed.

Lemma rev_rev (s : string) : String.rev (String.rev s) = s.
Proof.
  unfold String.rev. rewrite rev_app_rev_app. simpl. apply append_empty.
Qed.

Lemma free_of_rev_app (bad : ascii -> bool) (s a : string) :
  free_of bad (String.rev_app s a) = free_of bad s && free_of bad a.
Proof.
  revert a. induction s as [|c s IH]; intros a; [reflexivity|].
  simpl. rewrite IH. simpl.
  destruct (bad c), (free_of bad s), (free_of bad a); reflexivity.
Qed.

Lemma trim_start_free (s : string) :
  free_of Ascii.is_space s = true -> trim_start s = s.
Proof.
  destruct s as [|c s]; [reflexivity|]. simpl. intros Hs.
  apply andb_true_iff in Hs. destruct Hs as [Hc _].
  apply negb_true_iff in Hc. rewrite Hc. reflexivity.
Qed.

(** Trimming leaves a string without white space as it is. *)
Lemma trim_free (s : string) :
  free_of Ascii.is_space s = true -> trim s = s.
Proof.
  intros Hs. unfold trim. rewrite (trim_start_free s Hs).
  rewrite trim_start_free; [apply rev_rev|].
  unfold String.rev. rewrite free_of_rev_app, Hs. reflexivity.
Qed.

Lemma plain_name_free (n : string) (bad : ascii -> bool) :
  (forall c, bad c = true ->
             (is_special c || Ascii.eqb c "=")%bool = true) ->
  plain_name n = true -> free_of bad n = true.
Proof.
  intros Hsub. apply free_of_weaken. exact Hsub.
Qed.

Lemma plain_value_free (v : string) (bad : ascii -> bool) :
  (forall c, bad c = true -> is_special c = true) ->
  plain_value v = true -> free_of bad v = true.
Proof.
  intros Hsub. apply free_of_weaken. exact Hsub.
Qed.

Lemma semicolon_is_special (c : ascii) :
  Ascii.eqb ";" c = true -> is_special c = true.
Proof.
  intros E. apply Ascii.eqb_eq in E. subst c. reflexivity.
Qed.

Lemma space_is_special (c : ascii) :
  Ascii.is_space c = true -> is_special c = true.
Proof.
  intros E. unfold is_special. rewrite E. reflexivity.
Qed.

(** The pair of a plain name and a plain value reads back as it was
    written. *)
Lemma add_pair_plain (n v : string) (obj : gmap string string) :
  plain_name n = true ->
  plain_value v = true ->
  add_pair (n +:+ "=" +:+ v) obj !! n = Some v.
Proof.
  intros Hn Hv. unfold add_pair.
  change (n +:+ "=" +:+ v) with (n +:+ String "=" v).
  rewrite cut_at_first.
  - rewrite (trim_free n), (trim_free v).
    + apply lookup_insert_eq.
    + apply (plain_value_free v); [exact space_is_special | exact Hv].
    + apply (plain_name_free n); [|exact Hn].
      intros c E. rewrite (space_is_special c E). reflexivity.
  - apply (plain_name_free n); [|exact Hn].
    intros c E. apply Ascii.eqb_eq in E. subst c. reflexivity.
Qed.

Lemma pair_has_no_semicolon (n v : string) :
  plain_name n = true ->
  plain_value v = true ->
  free_of (Ascii.eqb ";") (n +:+ "=" +:+ v) = true.
Proof.
  intros Hn Hv. rewrite !free_of_append.
  rewrite (plain_name_free n (Ascii.eqb ";")); [|
    intros c E; rewrite (semicolon_is_special c E); reflexivity | exact Hn].
  rewrite (plain_value_free v (Ascii.eqb ";"));
    [reflexivity | exact semicolon_is_special | exact Hv].
Qed.

(** A cookie string that starts with the pair of a plain name and a plain
    value holds the value under the name, whatever follows the pair. *)
Lemma parse_first_pair (n v r : string) :
  plain_name n = true ->
  plain_value v = true ->
  parse (n +:+ "=" +:+ v +:+ String ";" r) !! n = Some v.
Proof.
  intros Hn Hv. unfold parse.
  replace (n +:+ "=" +:+ v +:+ String ";" r)
    with ((n +:+ "=" +:+ v) +:+ String ";" r)
    by (rewrite !append_associative; reflexivity).
  rewrite split_on_first by (apply pair_has_no_semicolon; assumption).
  simpl. apply add_pair_plain; assumption.
Qed.

Lemma parse_only_pair (n v : string) :
  plain_name n = true ->
  plain_value v = true ->
  parse (n +:+ "=" +:+ v) !! n = Some v.
Proof.
  intros Hn Hv. unfold parse.
  rewrite split_on_single by (apply pair_has_no_semicolon; assumption).
  simpl. apply add_pair_plain; assumption.
Qed.

(** Under another plain name the only pair of a cookie string is not
    found. *)
Lemma parse_other_name (n n' v : string) :
  plain_name n = true ->
  plain_value v = true ->
  n' <> n ->
  parse (n +:+ "=" +:+ v) !! n' = None.
Proof.
  intros Hn Hv Hne. unfold parse.
  rewrite split_on_single by (apply pair_has_no_semicolon; assumption).
  simpl. unfold add_pair.
  change (n +:+ "=" +:+ v) with (n +:+ String "=" v).
  rewrite cut_at_first.
  - rewrite (trim_free n).
    + rewrite lookup_insert_ne by congruence. apply lookup_empty.
    + apply (plain_name_free n); [|exact Hn].
      intros c E. rewrite (space_is_special c E). reflexivity.
  - apply (plain_name_free n); [|exact Hn].
    intros c E. apply Ascii.eqb_eq in E. subst c. reflexivity.
Qed.

End CookieStringProps.


(** ** One cookie name for creation, injection and resolution *)

Module SessionModuleProps.
Import Eff SessionManager SessionModule TestInjector.

Section OneName.
Context `{Codec}.
Context `{Issuer}.
Variable ethereumAddress : nat -> string.
Variable addCookies : Page -> list Cookie -> Completion unit.

Local Abbreviation imports := (injector_imports ethereumAddress addCookies).

Lemma set_cookie_not_empty (t : TransportInstruction) :
  Js.truthy_string (set_cookie t) = true.
Proof.
  apply JsFacts.truthy_string_true. unfold set_cookie.
  destruct (instruction_name t); discriminate.
Qed.

(** What follows the pair in the [Set-Cookie] value of an instruction. *)
Definition attributes_of (t : TransportInstruction) : string :=
  "; Max-Age=" +:+ pretty (maxAge t)
  +:+ "; Path=/; HttpOnly; SameSite=Lax"
  +:+ (if secureOnly t then "; Secure" else "").

Lemma read_cookie_bearing (u n v : string) :
  plain_name n = true ->
  plain_value v = true ->
  read_cookie
    (request_bearing u
       {| name := n; value := Some v; domain := "localhost"; path := "/" |})
    n = Some v.
Proof.
  intros Hn Hv. unfold read_cookie, request_bearing. simpl.
  change (Fetch.get [("Cookie", n +:+ "=" +:+ v)] "Cookie")
    with (Some (n +:+ "=" +:+ v)).
  apply CookieStringProps.parse_only_pair; assumption.
Qed.

(** A cookie installed under another name is not the session cookie: the
    request that bears it resolves to no identity. *)
Lemma diverging_name_is_not_resolved (u n v : string) :
  plain_name n = true ->
  plain_value v = true ->
  SESSION_COOKIE_NAME <> n ->
  resolveSession
    (request_bearing u
       {| name := n; value := Some v; domain := "localhost"; path := "/" |})
  = {| identity := None; clear_cookie := false |}.
Proof.
  intros Hn Hv Hne. unfold resolveSession, read_cookie, request_bearing.
  simpl.
  change (Fetch.get [("Cookie", n +:+ "=" +:+ v)] "Cookie")
    with (Some (n +:+ "=" +:+ v)).
  rewrite CookieStringProps.parse_other_name by assumption. reflexivity.
Qed.


End OneName.

(** *** The sample session module *)

Example injected_session_resolves :
  resolveSession (H := sample_codec)
    (request_bearing "http://localhost:3000/"
       {| name := "sid"; value := Some "u:did:ethr:0xabc";
          domain := "localhost"; path := "/" |})
  = {| identity := Some "did:ethr:0xabc"; clear_cookie := false |}.
Proof. vm_compute. reflexivity. Qed.

(** An injector given another name than the module's installs no token,
    and a cookie under that other name resolves to nobody. *)
Example diverging_names_break_the_session :
  trace
    (loginByCookie
       (H := {| USER_AUTHENTICATION_SESSION_NAME := "__session";
                createUserSession :=
                  SessionModule.createUserSession (H := sample_codec)
                    (H0 := sample_issuer);
                ethereumAddress := fun n => pretty n;
                parse := CookieString.parse;
                addCookies := fun _ _ => Normal tt |})
       (Some "did:ethr:0xabc") (mkPage 1)) fresh_world
  = [ CreateUserSession
        {| redirectTo := "/";
           remember := false;
           request := Fetch.new_Request "http://localhost:3000/";
           userId := "did:ethr:0xabc" |};
      AddCookies (mkPage 1)
        [ {| name := "__session"; value := None;
             domain := "localhost"; path := "/" |} ] ]
  /\ resolveSession (H := sample_codec)
       (request_bearing "http://localhost:3000/"
          {| name := "__session"; value := Some "u:did:ethr:0xabc";
             domain := "localhost"; path := "/" |})
     = {| identity := None; clear_cookie := false |}.
Proof. split; vm_compute; reflexivity. Qed.


End SessionModuleProps.
